(** * Sensor-event backend (main.py) and serial bridge (serialbridge.py)

    A shallow embedding of the event intake, matching and notification
    pipeline of the Flask backend, and of the port selection and the
    rate-limited read loop of the serial bridge, followed by the properties
    established about them.

    Of main.py the handlers that write to the database are embedded
    ([receive_event], [ngos], [clear_events]) with the functions they call,
    and [stats]; the event listing and the dashboard only read.  Of
    serialbridge.py everything is embedded.  The database, the console, the
    messaging provider, the serial port and the terminal are the
    environment: what they answer is an input of the model, and what the
    program does to them is recorded in a trace.  The database is SQLite
    behind SQLAlchemy, as main.py configures it: a commit binds each
    attribute to its column and raises when the driver refuses the
    value.  The console takes every line that is printed. *)

From Stdlib Require Import String Ascii ZArith List Bool Lia DecimalString.
From Stdlib Require DecimalPos DecimalZ PrimFloat FloatOps SpecFloat.
Import ListNotations.
Open Scope string_scope.
Set Warnings "-register-all".

(** ** Python values and the builtins the two programs use *)

Module Py.

(** Decoded JSON as Python holds it: [None], [bool], [int], [float] (a
    binary64 number, [NaN] and the infinities included, as [json.loads]
    yields them), [str], [list] and [dict] with string keys (insertion
    ordered).  A [str] is held as its UTF-8 text; a string with a lone
    surrogate has none and is not covered. *)
Inductive value : Type :=
| VNone
| VBool (b : bool)
| VInt (z : Z)
| VFloat (f : PrimFloat.float)
| VStr (s : string)
| VList (l : list value)
| VDict (d : list (string * value)).

Definition dict : Type := list (string * value).

(** Exceptions the modelled code can meet.  All of them derive from
    Python's [Exception].  [DBAPIError] stands for the error SQLAlchemy
    raises when the driver refuses a parameter (an [InterfaceError] or a
    [ProgrammingError], by the version of the driver; both derive from
    [DBAPIError]), [HTTPException code] for the error Flask answers with
    that status. *)
Inductive exn : Type :=
| AttributeError
| TypeError
| KeyError (k : string)
| IOError (msg : string)
| ValueError
| RecursionError
| OverflowError
| DBAPIError
| HTTPException (code : Z).

Fixpoint lookup (d : dict) (k : string) : option value :=
  match d with
  | [] => None
  | (k', v) :: d' => if String.eqb k' k then Some v else lookup d' k
  end.

(** [d.get(k, default)]; [d.get(k)] is [get d k VNone]. *)
Definition get (d : dict) (k : string) (default : value) : value :=
  match lookup d k with
  | Some v => v
  | None => default
  end.

(** [d.setdefault(k, v)]: the dictionary afterwards. *)
Definition setdefault (d : dict) (k : string) (v : value) : dict :=
  match lookup d k with
  | Some _ => d
  | None => (d ++ [(k, v)])%list
  end.

(** Truth value testing. *)
Definition truthy (v : value) : bool :=
  match v with
  | VNone => false
  | VBool b => b
  | VInt z => negb (z =? 0)%Z
  | VFloat f => negb (PrimFloat.eqb f PrimFloat.zero)
  | VStr s => negb (String.eqb s "")
  | VList l => match l with [] => false | _ :: _ => true end
  | VDict d => match d with [] => false | _ :: _ => true end
  end.

(** [a or b]. *)
Definition or_ (a b : value) : value := if truthy a then a else b.

(** [v == s] for a string literal [s]. *)
Definition eq_str (v : value) (s : string) : bool :=
  match v with
  | VStr s' => String.eqb s' s
  | _ => false
  end.

(** The integer behind an [int] or a [bool] (a subclass of [int]); the other
    types take no part in integer arithmetic or ordering. *)
Definition as_int (v : value) : option Z :=
  match v with
  | VInt z => Some z
  | VBool b => Some (if b then 1 else 0)%Z
  | _ => None
  end.

(** A number as Python computes with it. *)
Inductive number : Type :=
| Int (z : Z)
| Float (f : PrimFloat.float).

Definition as_number (v : value) : option number :=
  match v with
  | VInt z => Some (Int z)
  | VBool b => Some (Int (if b then 1 else 0)%Z)
  | VFloat f => Some (Float f)
  | _ => None
  end.

(** The float nearest to an integer, ties to even. *)
Definition nearest_float (z : Z) : PrimFloat.float :=
  let magnitude (p : positive) :=
    FloatOps.SF2Prim
      (SpecFloat.binary_normalize FloatOps.prec FloatOps.emax (Zpos p) 0 false) in
  match z with
  | Z0 => PrimFloat.zero
  | Zpos p => magnitude p
  | Zneg p => PrimFloat.opp (magnitude p)
  end.

(** [float(z)], as mixed arithmetic converts an [int]: it raises when the
    integer is beyond the floats. *)
Definition float_of_int (z : Z) : PrimFloat.float + exn :=
  let f := nearest_float z in
  if PrimFloat.is_infinity f then inr OverflowError else inl f.

(** [a - b]. *)
Definition sub (a b : value) : number + exn :=
  match as_number a, as_number b with
  | Some (Int x), Some (Int y) => inl (Int (x - y))
  | Some (Int x), Some (Float g) =>
      match float_of_int x with
      | inl f => inl (Float (PrimFloat.sub f g))
      | inr e => inr e
      end
  | Some (Float f), Some (Int y) =>
      match float_of_int y with
      | inl g => inl (Float (PrimFloat.sub f g))
      | inr e => inr e
      end
  | Some (Float f), Some (Float g) => inl (Float (PrimFloat.sub f g))
  | _, _ => inr TypeError
  end.

(** [a > z] for an [int] literal [z] that is exactly a float. *)
Definition gt_literal (a : value) (z : Z) : bool + exn :=
  match as_number a with
  | Some (Int x) => inl (x >? z)%Z
  | Some (Float f) => inl (PrimFloat.ltb (nearest_float z) f)
  | None => inr TypeError
  end.

(** [n < z] for an [int] literal [z] that is exactly a float. *)
Definition lt_literal (n : number) (z : Z) : bool :=
  match n with
  | Int x => (x <? z)%Z
  | Float f => PrimFloat.ltb f (nearest_float z)
  end.

(** [str(z)] for an [int]. *)
Definition str_int (z : Z) : string := NilZero.string_of_int (Z.to_int z).

(** [sep.join(l)]. *)
Definition join (sep : string) (l : list string) : string := String.concat sep l.

(** [len(l)] as the [int] it is. *)
Definition len {A : Type} (l : list A) : Z := Z.of_nat (length l).

Definition nl : string := String (ascii_of_nat 10) "".

(** [s.split(sep)] for a separator of one character: how a reader takes a
    joined column apart again. *)
Fixpoint split (sep : ascii) (s : string) : list string :=
  match s with
  | EmptyString => [EmptyString]
  | String c s' =>
      if Ascii.eqb c sep then EmptyString :: split sep s'
      else
        match split sep s' with
        | field :: fields => String c field :: fields
        | [] => [String c EmptyString]
        end
  end.

(** [sep not in s]. *)
Fixpoint free_of (sep : ascii) (s : string) : bool :=
  match s with
  | EmptyString => true
  | String c s' => negb (Ascii.eqb c sep) && free_of sep s'
  end.

End Py.

Import Py.

(** ** The backend: main.py *)

Module NGO.
(** [class NGO(db.Model)], a row as a query loads it.  A [db.String] column
    holds [None] or text; [lat] and [lon] are never assigned by this
    program. *)
Record t : Type := mk {
  id : Z;
  name : value;
  phone : value;
  email : value;
  lat : value;
  lon : value;
  services : value
}.
End NGO.

Module Event.
(** [class Event(db.Model)], a row as a query loads it.  [created_at] is
    the reading of the server clock; [matched_ngos] is [None] until it is
    assigned. *)
Record t : Type := mk {
  id : Z;
  device_id : value;
  event_type : value;
  raw : string;
  created_at : Z;
  matched_ngos : option string;
  status : string
}.

Definition set_matched_ngos (s : string) (e : t) : t :=
  mk (id e) (device_id e) (event_type e) (raw e) (created_at e) (Some s) (status e).

Definition set_status (s : string) (e : t) : t :=
  mk (id e) (device_id e) (event_type e) (raw e) (created_at e) (matched_ngos e) s.
End Event.

Module Backend.

(** What lies outside the program text: the rendering [str] gives a list or
    a dictionary and the one it gives a float, what SQLite puts into a text
    column for a float (its own rendering, or [NULL] for [NaN]), the three
    environment variables read at start-up, and the messaging provider.
    [provider n] is the outcome of the [n]-th guarded provider call since
    start-up: [None] when it returns, [Some e] when it raises an exception
    that prints as [e]. *)
Class Environment : Type := {
  repr_container : value -> string;
  repr_float : PrimFloat.float -> string;
  sqlite_text : PrimFloat.float -> option string;
  TWILIO_SID : option string;
  TWILIO_TOKEN : option string;
  TWILIO_FROM : option string;
  provider : nat -> option string
}.

(** What a request does beyond the database: console lines, reads of the
    responder table, and provider calls with their outcome. *)
Inductive effect : Type :=
| Printed (line : string)
| NgoQueryAll
| MessagesCreate (body : string) (from_ : option string) (to : value)
    (failure : option string).

(** The database tables in storage order, and the effects so far in the
    order they happened. *)
Record world : Type := mkWorld {
  events : list Event.t;
  ngos_table : list NGO.t;
  trace : list effect
}.

Definition empty_world : world := mkWorld [] [] [].

(** A handler is a state transformer that returns or raises. *)
Definition M (A : Type) : Type := world -> (A + exn) * world.

Definition ret {A : Type} (a : A) : M A := fun w => (inl a, w).

Definition raise {A : Type} (e : exn) : M A := fun w => (inr e, w).

Definition bind {A B : Type} (m : M A) (k : A -> M B) : M B :=
  fun w =>
    match m w with
    | (inl a, w') => k a w'
    | (inr e, w') => (inr e, w')
    end.

Declare Scope py_scope.
Delimit Scope py_scope with py.
Notation "x <- m ;; k" := (bind m (fun x => k))
  (at level 61, m at next level, right associativity) : py_scope.
Notation "m ;; k" := (bind m (fun _ => k))
  (at level 61, right associativity) : py_scope.
Open Scope py_scope.

Definition emit (e : effect) : M unit :=
  fun w => (inl tt, mkWorld (events w) (ngos_table w) (trace w ++ [e])%list).

Definition print (line : string) : M unit := emit (Printed line).

(** The rowid the store gives the next row of a table. *)
Definition next_id (ids : list Z) : Z := (1 + fold_right Z.max 0 ids)%Z.

(** [NGO.query.all()]. *)
Definition NGO_query_all : M (list NGO.t) :=
  emit NgoQueryAll ;; (fun w => (inl (ngos_table w), w)).

(** [db.session.commit()] after attributes of the persistent [ev] were
    assigned: its row is rewritten. *)
Definition commit_event (ev : Event.t) : M unit :=
  fun w =>
    (inl tt,
     mkWorld
       (map (fun e => if (Event.id e =? Event.id ev)%Z then ev else e) (events w))
       (ngos_table w) (trace w)).

(** [Event.query.delete(); db.session.commit()]. *)
Definition Event_query_delete : M Z :=
  fun w => (inl (len (events w)), mkWorld [] (ngos_table w) (trace w)).

(** What [request.get_json()] meets: a request whose content type is not
    JSON, a body that does not parse as JSON (a zero-length one included),
    or a body that parses to a value. *)
Inductive body : Type :=
| NotJson
| Unparsable
| Parses (json : value).

Coercion Parses : value >-> body.

(** [request.get_json()], which answers a request it cannot read with the
    status 415 or 400 (Flask 2.1 and later). *)
Definition get_json (sent : body) : M value :=
  match sent with
  | NotJson => raise (HTTPException 415)
  | Unparsable => raise (HTTPException 400)
  | Parses json => ret json
  end.

(** Whether the driver takes a value for a [db.String] column: [None],
    text and numbers, an [int] only within 64 bits; no list, no
    dictionary. *)
Definition storable (v : value) : bool :=
  match v with
  | VInt z => (- 2 ^ 63 <=? z)%Z && (z <? 2 ^ 63)%Z
  | VList _ | VDict _ => false
  | _ => true
  end.

(** How many provider calls a trace holds. *)
Definition calls_so_far (tr : list effect) : nat :=
  length (filter (fun e => match e with
                           | MessagesCreate _ _ _ _ => true
                           | _ => false
                           end) tr).

Section Handlers.
Context {env : Environment}.

(** [str(v)], which is also what an f-string puts for [{v}]. *)
Definition str (v : value) : string :=
  match v with
  | VNone => "None"
  | VBool true => "True"
  | VBool false => "False"
  | VInt z => str_int z
  | VFloat f => repr_float f
  | VStr s => s
  | VList _ | VDict _ => repr_container v
  end.

(** What a [db.String] column holds once a value is bound to it at a
    commit, and what a later load gives back: the column has text
    affinity, so a number is kept as its text (a [bool] is the integer 1
    or 0); the driver refuses an [int] beyond 64 bits with [OverflowError]
    and a list or a dictionary with an error of its own. *)
Definition String_column (v : value) : value + exn :=
  match v with
  | VNone => inl VNone
  | VBool b => inl (VStr (if b then "1" else "0"))
  | VInt z =>
      if storable (VInt z) then inl (VStr (str_int z)) else inr OverflowError
  | VFloat f =>
      inl (match sqlite_text f with Some text => VStr text | None => VNone end)
  | VStr s => inl (VStr s)
  | VList _ | VDict _ => inr DBAPIError
  end.

(** What a column holds for a value the driver takes. *)
Definition stored (v : value) : value :=
  match String_column v with
  | inl kept => kept
  | inr _ => VNone
  end.

(** [db.session.add(ev); db.session.commit()] for a new event without
    [id], [matched_ngos] and [status]: the attributes are bound in column
    order; the row gets its id and the column default ["new"].  When the
    driver refuses a value nothing is stored. *)
Definition add_event (device_id event_type : value) (raw : string)
    (created_at : Z) : M Event.t :=
  fun w =>
    match String_column device_id with
    | inr e => (inr e, w)
    | inl device_id =>
        match String_column event_type with
        | inr e => (inr e, w)
        | inl event_type =>
            let ev := Event.mk (next_id (map Event.id (events w))) device_id
                        event_type raw created_at None "new" in
            (inl ev, mkWorld (events w ++ [ev])%list (ngos_table w) (trace w))
        end
    end.

(** [db.session.add(n); db.session.commit()] for a new responder. *)
Definition add_ngo (name phone email services : value) : M NGO.t :=
  fun w =>
    match String_column name with
    | inr e => (inr e, w)
    | inl name =>
        match String_column phone with
        | inr e => (inr e, w)
        | inl phone =>
            match String_column email with
            | inr e => (inr e, w)
            | inl email =>
                match String_column services with
                | inr e => (inr e, w)
                | inl services =>
                    let n := NGO.mk (next_id (map NGO.id (ngos_table w))) name
                               phone email VNone VNone services in
                    (inl n, mkWorld (events w) (ngos_table w ++ [n])%list (trace w))
                end
            end
        end
    end.

(** [os.getenv] gives [None] or a string; the truth value of either. *)
Definition truthy_env (v : option string) : bool :=
  match v with
  | None => false
  | Some s => negb (String.eqb s "")
  end.

Definition match_ngos_for_event (event_json : dict) : M (list NGO.t) :=
  let event_type := get event_json "event_type" (VStr "") in
  ngos <- NGO_query_all ;;
  match ngos with
  | [] =>
      print "WARNING: No NGOs registered in system!" ;;
      ret []
  | _ :: _ =>
      let matched := firstn 10 ngos in
      print ("Matched " ++ str_int (len matched) ++ " NGOs for event type: "
             ++ str event_type) ;;
      ret matched
  end.

(** The guarded block of [notify_ngos]: build the client, create the
    message, report; an exception is caught and reported. *)
Definition send_sms (text : string) (to : value) : M unit :=
  fun w =>
    let outcome := provider (calls_so_far (trace w)) in
    (emit (MessagesCreate text TWILIO_FROM to outcome) ;;
     match outcome with
     | None => print "  ✓ SMS sent successfully"
     | Some e => print ("  ✗ Twilio error: " ++ e)
     end) w.

(** The alert message of [notify_ngos], which depends on the event alone. *)
Definition alert_text (event : dict) : string :=
  let event_type := get event "event_type" (VStr "unknown") in
  let device_id := get event "device_id" (VStr "unknown") in
  if eq_str event_type "possible_encampment"
  then "🚨 ALERT: Person needs assistance at " ++ str device_id
       ++ ". They have been present for 3+ minutes. Please respond."
  else "⚠️ NOTIFICATION: Motion detected at " ++ str device_id
       ++ ". Monitoring situation.".

(** The dictionary [notify_ngos] appends to [msgs] for one responder. *)
Definition msg_entry (ngo : NGO.t) (text : string) : value :=
  VDict [("ngo", NGO.name ngo); ("phone", NGO.phone ngo); ("message", VStr text)].

(** The body of [for ngo in ngos], with [msgs] threaded through. *)
Fixpoint notify_loop (ngos : list NGO.t) (event : dict) (msgs : list value)
    : M (list value) :=
  match ngos with
  | [] => ret msgs
  | ngo :: rest =>
      let text := alert_text event in
      print ("→ Notifying " ++ str (NGO.name ngo) ++ " (" ++ str (NGO.phone ngo)
             ++ "): " ++ text) ;;
      let msgs := (msgs ++ [msg_entry ngo text])%list in
      (if truthy_env TWILIO_SID && truthy (NGO.phone ngo)
       then send_sms text (NGO.phone ngo)
       else ret tt) ;;
      notify_loop rest event msgs
  end.

Definition notify_ngos (ngos : list NGO.t) (event : dict) : M (list value) :=
  notify_loop ngos event [].

(** [data.get("event") or data.get("event_type") or "unknown"]. *)
Definition event_type_of (data : dict) : value :=
  or_ (or_ (get data "event" VNone) (get data "event_type" VNone)) (VStr "unknown").

(** [",".join([str(n.id) for n in ngos])]. *)
Definition joined_ids (ngos : list NGO.t) : string :=
  join "," (map (fun n => str_int (NGO.id n)) ngos).

(** [receive_event], from the body of the request and the reading of
    [datetime.utcnow()].  The first [data.get] raises [AttributeError] when
    [data] is not a dictionary. *)
Definition receive_event (sent : body) (utcnow : Z) : M value :=
  json <- get_json sent ;;
  match or_ json (VDict []) with
  | VDict data =>
      let device_id := get data "device_id" (VStr "unknown") in
      let event_type := event_type_of data in
      let timestamp := utcnow in
      print (nl ++ "📥 Received event: " ++ str event_type ++ " from "
             ++ str device_id) ;;
      ev <- add_event device_id event_type (str (VDict data)) timestamp ;;
      let should_notify := eq_str event_type "possible_encampment" in
      if should_notify then
        print "🔔 Critical alert detected - matching NGOs..." ;;
        ngos <- match_ngos_for_event data ;;
        match ngos with
        | _ :: _ =>
            notified <- notify_ngos ngos data ;;
            let ev := Event.set_matched_ngos (joined_ids ngos) ev in
            let ev := Event.set_status "notified" ev in
            commit_event ev ;;
            print ("✓ Event #" ++ str_int (Event.id ev) ++ " - Notified "
                   ++ str_int (len ngos) ++ " NGOs") ;;
            ret (VDict [("status", VStr "ok");
                        ("event_id", VInt (Event.id ev));
                        ("notified", VList notified);
                        ("message", VStr ("Alert sent to " ++ str_int (len ngos)
                                          ++ " NGOs"))])
        | [] =>
            print "⚠️ No NGOs available to notify!" ;;
            ret (VDict [("status", VStr "warning");
                        ("event_id", VInt (Event.id ev));
                        ("message", VStr "Event saved but no NGOs registered")])
        end
      else
        print ("✓ Event #" ++ str_int (Event.id ev)
               ++ " logged (no notification needed)") ;;
        ret (VDict [("status", VStr "ok");
                    ("event_id", VInt (Event.id ev));
                    ("message", VStr "Event logged")])
  | _ => raise AttributeError
  end.

(** [ngos], the responder admin endpoint, by request method.  On a POST,
    [j['name']] raises [TypeError] when [j] is not a dictionary and
    [KeyError] when it has no such key. *)
Definition ngos (method : string) (sent : body) : M value :=
  if String.eqb method "POST" then
    json <- get_json sent ;;
    match json with
    | VDict j =>
        match lookup j "name" with
        | Some name =>
            n <- add_ngo name (get j "phone" VNone) (get j "email" VNone)
                   (get j "services" (VStr "")) ;;
            print ("✓ Added NGO: " ++ str (NGO.name n) ++ " (ID: "
                   ++ str_int (NGO.id n) ++ ")") ;;
            ret (VDict [("id", VInt (NGO.id n)); ("name", NGO.name n)])
        | None => raise (KeyError "name")
        end
    | _ => raise TypeError
    end
  else
    ngo_list <- NGO_query_all ;;
    ret (VList (map (fun n => VDict [("id", VInt (NGO.id n));
                                     ("name", NGO.name n);
                                     ("phone", NGO.phone n);
                                     ("email", NGO.email n)]) ngo_list)).

(** [clear_events]; deleting binds no value, so the store has nothing to
    refuse. *)
Definition clear_events : M value :=
  num_deleted <- Event_query_delete ;;
  print ("🗑️ Cleared " ++ str_int num_deleted ++ " events from database") ;;
  ret (VDict [("status", VStr "ok");
              ("deleted", VInt num_deleted);
              ("message", VStr ("Cleared " ++ str_int num_deleted ++ " events"))]).

(** The requests that reach the database. *)
Inductive request : Type :=
| PostEvent (sent : body) (utcnow : Z)
| Ngos (method : string) (sent : body)
| PostClear.

Definition handle (r : request) : M value :=
  match r with
  | PostEvent sent utcnow => receive_event sent utcnow
  | Ngos method sent => ngos method sent
  | PostClear => clear_events
  end.

(** The world after serving requests one after another from [w]. *)
Fixpoint serve (rs : list request) (w : world) : world :=
  match rs with
  | [] => w
  | r :: rs' => serve rs' (snd (handle r w))
  end.

End Handlers.

(** The invariant of an event row: a notified event lists at least one
    responder. *)
Definition notified_has_match (e : Event.t) : bool :=
  if String.eqb (Event.status e) "notified" then
    match Event.matched_ngos e with
    | Some s => negb (String.eqb s "")
    | None => false
    end
  else true.

Definition invariant (w : world) : bool := forallb notified_has_match (events w).

(** The recipients of the provider calls of a trace, in order. *)
Definition recipients (tr : list effect) : list value :=
  flat_map (fun e => match e with MessagesCreate _ _ to _ => [to] | _ => [] end) tr.

(** The outcomes of the provider calls of a trace, in order. *)
Definition outcomes (tr : list effect) : list (option string) :=
  flat_map (fun e => match e with MessagesCreate _ _ _ o => [o] | _ => [] end) tr.

(** Whether a trace shows the matcher or the dispatcher at work: a read of
    the responder table or a provider call. *)
Definition touches_responders (tr : list effect) : bool :=
  existsb (fun e => match e with
                    | NgoQueryAll | MessagesCreate _ _ _ _ => true
                    | Printed _ => false
                    end) tr.

(** A key that is missing from a dictionary or holds a false value. *)
Definition absent_or_falsy (d : dict) (k : string) : bool :=
  match lookup d k with
  | None => true
  | Some v => negb (truthy v)
  end.

(** The responders [notify_ngos] calls the provider for. *)
Definition reachable_by_sms {env : Environment} (ngos : list NGO.t) : list NGO.t :=
  filter (fun n => truthy_env TWILIO_SID && truthy (NGO.phone n)) ngos.

(** [stats]: three counts read from the tables; the counting queries leave
    no trace. *)
Definition stats : M value :=
  fun w =>
    let total_events := len (events w) in
    let total_ngos := len (ngos_table w) in
    let active_alerts :=
      len (filter (fun e => String.eqb (Event.status e) "notified") (events w)) in
    (inl (VDict [("total_events", VInt total_events);
                 ("total_ngos", VInt total_ngos);
                 ("active_alerts", VInt active_alerts)]),
     w).

(** A body [receive_event] can work with: one that is false (and so gives
    way to the empty dictionary) or a dictionary. *)
Definition accepted (json : value) : bool :=
  negb (truthy json) || match json with VDict _ => true | _ => false end.

(** A body whose event the store takes: an accepted one whose device id
    and event type can be bound to their columns. *)
Definition stores (json : value) : bool :=
  match or_ json (VDict []) with
  | VDict data =>
      storable (get data "device_id" (VStr "unknown"))
      && storable (event_type_of data)
  | _ => false
  end.

(** A responder the store takes: every text attribute of the request can
    be bound to its column. *)
Definition storable_responder (j : dict) (name : value) : bool :=
  storable name && storable (get j "phone" VNone)
  && storable (get j "email" VNone) && storable (get j "services" (VStr "")).

(** The arguments of the provider calls of a trace, in order: body, sender
    and recipient. *)
Definition provider_calls (tr : list effect) : list (string * option string * value) :=
  flat_map (fun e => match e with
                     | MessagesCreate body from_ to _ => [(body, from_, to)]
                     | _ => []
                     end) tr.

(** Status and matched responders of an event row go together. *)
Definition matched_iff_notified (e : Event.t) : bool :=
  Bool.eqb (String.eqb (Event.status e) "notified")
           (match Event.matched_ngos e with Some _ => true | None => false end).

End Backend.

(** ** The serial bridge: serialbridge.py *)

Module Bridge.

Definition SERIAL_PORT : option string := Some "/dev/cu.usbmodem101".
Definition BAUD : Z := 115200.
Definition BACKEND_URL : string := "http://127.0.0.1:5000/api/event".
Definition MIN_INTERVAL : Z := 2.

(** An entry of [list_ports.comports()]. *)
Record port : Type := mkPort {
  device : string;
  description : string
}.

(** What standard input does when [choose_port] turns to it: it is no
    terminal, or [input(...).strip()] yields [choice], or one of the two
    calls raises an exception, or the operator interrupts the prompt. *)
Inductive terminal : Type :=
| NotATty
| Answers (choice : string)
| IsattyRaises (e : exn)
| InputRaises (e : exn)
| Interrupted.

(** The machine the bridge runs on: [int] on a string ([None] for
    [ValueError]), whether [serial.Serial] opens a port when [choose_port]
    probes it and when [run] opens it ([None] when it does), the enumerated
    ports and standard input. *)
Class Host : Type := {
  int : string -> option Z;
  Serial_probe : string -> option exn;
  Serial_open : string -> option exn;
  comports : list port;
  stdin : terminal
}.

(** What [requests.post] does: it answers, or it raises. *)
Inductive reply : Type :=
| Response (status_code : Z) (text : string)
| PostRaises (e : exn).

(** What one line read from the device brings: the decoded and stripped
    text, what [json.loads] makes of it ([None] for [JSONDecodeError]), the
    reading of [int(time.time() * 1000)], and what [requests.post] would
    answer.  [json.loads] may also raise something else than
    [JSONDecodeError] (on nesting too deep, on a number too long), the read
    itself may raise, and the operator may interrupt.  The interrupt is
    taken while the loop waits for a line; one that arrives during the
    pause of the exception handler would leave [run] at once, without the
    last console line, and is outside the model. *)
Inductive reading : Type :=
| Line (line : string) (loads : option value) (now_ms : Z) (backend : reply)
| LoadsRaises (line : string) (e : exn)
| ReadRaises (e : exn)
| Interrupt.

Inductive effect : Type :=
| Printed (line : string)
| PrintedExn (label : string) (e : exn)
| Prompted (prompt : string)
| Posted (url : string) (payload : dict)
| Slept (seconds : Z).

(** What [choose_port] hands back, unless [KeyboardInterrupt] passes
    through it. *)
Inductive chosen : Type :=
| Returns (p : option string)
| KeyboardInterrupt.

Definition lower_ascii (c : ascii) : ascii :=
  let n := nat_of_ascii c in
  if (65 <=? n)%nat && (n <=? 90)%nat then ascii_of_nat (n + 32) else c.

(** [s.lower()], exact on ASCII; what lies outside ASCII never becomes a
    letter of it. *)
Fixpoint lower (s : string) : string :=
  match s with
  | EmptyString => EmptyString
  | String c s' => String (lower_ascii c) (lower s')
  end.

Definition send_to_backend (payload : dict) (backend : reply) : list effect :=
  Posted BACKEND_URL payload ::
  match backend with
  | Response status_code text =>
      [Printed ("POST " ++ str_int status_code ++ " " ++ text)]
  | PostRaises e => [PrintedExn "Error posting to backend:" e]
  end.

(** The guard of the rate limiter,
    [last_event_time > 0 and (current_time - last_event_time) < (MIN_INTERVAL * 1000)],
    which raises [TypeError] on an operand that is no number, computes in
    floating point as soon as one operand is a float, and is false whenever
    a [NaN] is compared. *)
Definition too_soon (last_event_time current_time : value) : bool + exn :=
  match gt_literal last_event_time 0 with
  | inr e => inr e
  | inl false => inl false
  | inl true =>
      match sub current_time last_event_time with
      | inr e => inr e
      | inl difference => inl (lt_literal difference (MIN_INTERVAL * 1000))
      end
  end.

(** [except Exception as e] of the read loop. *)
Definition on_exception (e : exn) : list effect :=
  [PrintedExn "Serial read error:" e; Slept 1].

(** The payload of a line on which [json.loads] returned ([loads] is its
    value) or raised [JSONDecodeError] ([loads] is [None]): parsed, or
    wrapped as raw text, then given the two defaults; [setdefault] raises
    [AttributeError] when the parsed line is no dictionary.  A line on
    which [json.loads] raises anything else is the reading
    [LoadsRaises]. *)
Definition payload_of (line : string) (loads : option value) (now_ms : Z)
    : dict + exn :=
  let payload :=
    match loads with
    | Some v => v
    | None => VDict [("raw", VStr line)]
    end in
  match payload with
  | VDict payload =>
      let payload := setdefault payload "device_id" (VStr "ELEGOO_PROTO_01") in
      let payload := setdefault payload "timestamp_ms" (VInt now_ms) in
      inl payload
  | _ => inr AttributeError
  end.

(** One pass through the body of [while True] that is not interrupted: the
    value of the global [last_event_time] afterwards and what was done. *)
Definition iteration (last_event_time : value) (r : reading) : value * list effect :=
  match r with
  | Line line loads now_ms backend =>
      if String.eqb line "" then (last_event_time, [])
      else
        let said := [Printed ("Serial: " ++ line)] in
        match payload_of line loads now_ms with
        | inl payload =>
            let current_time := get payload "timestamp_ms" VNone in
            match too_soon last_event_time current_time with
            | inl true =>
                (last_event_time,
                 said ++ [Printed "  (Skipped - too soon after last event)"])%list
            | inl false =>
                (current_time, said ++ send_to_backend payload backend)%list
            | inr e => (last_event_time, said ++ on_exception e)%list
            end
        | inr e => (last_event_time, said ++ on_exception e)%list
        end
  | LoadsRaises line e =>
      if String.eqb line "" then (last_event_time, [])
      else (last_event_time, [Printed ("Serial: " ++ line)] ++ on_exception e)%list
  | ReadRaises e => (last_event_time, on_exception e)
  | Interrupt => (last_event_time, [])
  end.

(** [while True] over the readings that arrive, up to an interrupt. *)
Fixpoint loop (last_event_time : value) (rs : list reading) : value * list effect :=
  match rs with
  | [] => (last_event_time, [])
  | Interrupt :: _ => (last_event_time, [Printed (nl ++ "Stopping bridge")])
  | r :: rs' =>
      let (last_event_time, done) := iteration last_event_time r in
      let (last_event_time, rest) := loop last_event_time rs' in
      (last_event_time, (done ++ rest)%list)
  end.

(** The module global at import time. *)
Definition last_event_time : value := VInt 0.

Section OnHost.
Context {host : Host}.

Definition prompt : string := "Select port [1] or enter number (q to quit): ".

(** The part of [choose_port] after the preferred port.  An index outside
    the candidates would raise [IndexError], which [except Exception]
    answers with the first candidate. *)
Definition enumerate_ports : list effect * chosen :=
  let ports := comports in
  match ports with
  | [] => ([Printed "No serial ports found. Is your device connected?"], Returns None)
  | first :: _ =>
      let candidates := map (fun p => (device p, description p)) ports in
      let listing :=
        Printed "Available serial ports:" ::
        map (fun '(i, (dev, desc)) =>
               Printed (" " ++ str_int (Z.of_nat i) ++ ") " ++ dev ++ "  " ++ desc))
            (combine (seq 1 (length candidates)) candidates) in
      match stdin with
      | Answers choice =>
          let asked := (listing ++ [Prompted prompt])%list in
          if String.eqb (lower choice) "q" then (asked, Returns None)
          else
            let '(idx, said) :=
              if String.eqb choice "" then (1%Z, [])
              else
                match int choice with
                | Some idx => (idx, [])
                | None => (1%Z, [Printed "Invalid selection, using first port."])
                end in
            let idx := Z.max 1 (Z.min (len candidates) idx) in
            match nth_error candidates (Z.to_nat (idx - 1)) with
            | Some (dev, _) => ((asked ++ said)%list, Returns (Some dev))
            | None => ((asked ++ said)%list, Returns (Some (device first)))
            end
      | NotATty =>
          ((listing ++
            [Printed "Non-interactive shell: auto-selecting first available port."])%list,
           Returns (Some (device first)))
      | IsattyRaises _ => (listing, Returns (Some (device first)))
      | InputRaises _ =>
          ((listing ++ [Prompted prompt])%list, Returns (Some (device first)))
      | Interrupted => ((listing ++ [Prompted prompt])%list, KeyboardInterrupt)
      end
  end.

Definition choose_port (preferred : option string) : list effect * chosen :=
  match preferred with
  | Some p =>
      if negb (String.eqb p "") then
        match Serial_probe p with
        | None => ([], Returns (Some p))
        | Some _ =>
            let (done, r) := enumerate_ports in
            (Printed ("Preferred port " ++ p ++ " not available.") :: done, r)
        end
      else enumerate_ports
  | None => enumerate_ports
  end.

(** [run] on the readings that arrive once the port is open. *)
Definition run (rs : list reading) : list effect :=
  let opening :=
    Printed ("Opening serial " ++
             match SERIAL_PORT with
             | Some p => if String.eqb p "" then "(auto-detect)" else p
             | None => "(auto-detect)"
             end) in
  match choose_port SERIAL_PORT with
  | (done, KeyboardInterrupt) => opening :: done
  | (done, Returns None) =>
      (opening :: done ++ [Printed "No port chosen, exiting."])%list
  | (done, Returns (Some chosen)) =>
      if String.eqb chosen "" then
        (opening :: done ++ [Printed "No port chosen, exiting."])%list
      else
        match Serial_open chosen with
        | Some e =>
            (opening :: done ++
             [PrintedExn ("Could not open port " ++ chosen ++ ":") e])%list
        | None =>
            (opening :: done ++
             [Printed ("Connected to " ++ chosen); Slept 2] ++
             snd (loop last_event_time rs))%list
        end
  end.

(** The preferred port is not given, is empty or does not open, so that
    [choose_port] goes on to enumerate. *)
Definition preferred_unusable (preferred : option string) : bool :=
  match preferred with
  | None => true
  | Some p =>
      String.eqb p "" || match Serial_probe p with Some _ => true | None => false end
  end.

End OnHost.

(** The payloads a run of effects forwards to the backend, in order: the
    ones handed to [requests.post], whatever it then does. *)
Definition posted (done : list effect) : list dict :=
  flat_map (fun e => match e with Posted _ payload => [payload] | _ => [] end) done.

(** Every line among the readings whose payload carries an integer
    [timestamp_ms] carries one below [bound]. *)
Definition stamps_below (bound : Z) (rs : list reading) : Prop :=
  forall line loads now_ms backend payload t,
    In (Line line loads now_ms backend) rs ->
    payload_of line loads now_ms = inl payload ->
    as_int (get payload "timestamp_ms" VNone) = Some t ->
    (t < bound)%Z.

(** The stamps of a list of payloads. *)
Definition stamps (payloads : list dict) : list value :=
  map (fun payload => get payload "timestamp_ms" VNone) payloads.

(** Integer stamps, the first at least the interval above [w] and each
    further one at least the interval above the one before. *)
Fixpoint spaced (w : Z) (ts : list value) : Prop :=
  match ts with
  | [] => True
  | v :: ts' =>
      exists t, v = VInt t /\ (w + MIN_INTERVAL * 1000 <= t)%Z /\ spaced t ts'
  end.

(** A reading that brings no payload: a blank line or a failed read. *)
Definition is_noise (r : reading) : bool :=
  match r with
  | Line line _ _ _ => String.eqb line ""
  | LoadsRaises line _ => String.eqb line ""
  | ReadRaises _ => true
  | Interrupt => false
  end.

(** A line whose payload carries a float under [timestamp_ms]. *)
Definition float_stamped (r : reading) : bool :=
  match r with
  | Line line loads now_ms _ =>
      match payload_of line loads now_ms with
      | inl payload =>
          match get payload "timestamp_ms" VNone with
          | VFloat _ => true
          | _ => false
          end
      | inr _ => false
      end
  | _ => false
  end.

End Bridge.

(** ** Sample data *)

Module Samples.
Import Backend.

(** No provider configured. *)
Definition offline : Environment := {|
  repr_container := fun _ => "{}";
  repr_float := fun _ => "0.0";
  sqlite_text := fun _ => Some "0.0";
  TWILIO_SID := None;
  TWILIO_TOKEN := None;
  TWILIO_FROM := None;
  provider := fun _ => None
|}.

(** A configured provider whose first call fails and whose later calls
    succeed. *)
Definition flaky : Environment := {|
  repr_container := fun _ => "{}";
  repr_float := fun _ => "0.0";
  sqlite_text := fun _ => Some "0.0";
  TWILIO_SID := Some "AC0000";
  TWILIO_TOKEN := Some "secret";
  TWILIO_FROM := Some "+15550000";
  provider := fun n => match n with O => Some "unreachable" | S _ => None end
|}.

Definition shelter_a : NGO.t :=
  NGO.mk 1 (VStr "Shelter A") (VStr "+15550001") VNone VNone VNone (VStr "").

Definition shelter_b : NGO.t :=
  NGO.mk 2 (VStr "Shelter B") (VStr "+15550002") VNone VNone VNone (VStr "").

Definition two_shelters : world := mkWorld [] [shelter_a; shelter_b] [].

Definition one_shelter : world := mkWorld [] [shelter_a] [].

Definition encampment : dict :=
  [("device_id", VStr "D1"); ("event_type", VStr "possible_encampment")].

Definition encampment_under_event : dict :=
  [("event", VStr "possible_encampment")].

Definition motion : dict := [("device_id", VStr "D1"); ("event", VStr "motion")].

(** A bare decimal reader, enough for the sample answers. *)
Definition digit_of (c : ascii) : option Z :=
  let n := nat_of_ascii c in
  if (48 <=? n)%nat && (n <=? 57)%nat then Some (Z.of_nat (n - 48)) else None.

Fixpoint digits_from (acc : Z) (s : string) : option Z :=
  match s with
  | EmptyString => Some acc
  | String c s' =>
      match digit_of c with
      | Some d => digits_from (10 * acc + d) s'
      | None => None
      end
  end.

Definition decimal (s : string) : option Z :=
  match s with
  | EmptyString => None
  | String _ _ => digits_from 0 s
  end.

Definition usb : Bridge.port := Bridge.mkPort "/dev/cu.usbmodem101" "Arduino Uno".
Definition bluetooth : Bridge.port := Bridge.mkPort "/dev/cu.Bluetooth" "n/a".

(** A machine with two ports on which the preferred one does not open;
    [answer] is what its standard input does. *)
Definition desk (answer : Bridge.terminal) : Bridge.Host := {|
  Bridge.int := decimal;
  Bridge.Serial_probe := fun _ => Some (IOError "could not open port");
  Bridge.Serial_open := fun _ => None;
  Bridge.comports := [usb; bluetooth];
  Bridge.stdin := answer
|}.

(** A line from the device that carries its own timestamp. *)
Definition stamped (t : Z) : Bridge.reading :=
  Bridge.Line "{...}" (Some (VDict [("event", VStr "motion"); ("timestamp_ms", VInt t)]))
    1700000000000 (Bridge.Response 200 "ok").

Definition stamped_payload (t : Z) : dict :=
  [("event", VStr "motion"); ("timestamp_ms", VInt t);
   ("device_id", VStr "ELEGOO_PROTO_01")].

Definition shelter (i : Z) : NGO.t :=
  NGO.mk i (VStr "Shelter") (VStr "+15550100") VNone VNone VNone (VStr "").


Definition shadowed_encampment : dict :=
  [("event", VStr "motion"); ("event_type", VStr "possible_encampment")].

Definition listed_device : dict :=
  [("device_id", VList [VInt 1]); ("event_type", VStr "possible_encampment")].

Definition listed_event : dict := [("device_id", VStr "D1"); ("event", VList [VStr "x"])].

(** What the HTTP client may say to a payload that holds [NaN]. *)
Definition not_json_compliant : Bridge.reply :=
  Bridge.PostRaises (IOError "Out of range float values are not JSON compliant").

(** A line whose stamp is the given value. *)
Definition stamped_with (v : value) : Bridge.reading :=
  Bridge.Line "{...}" (Some (VDict [("timestamp_ms", v)])) 1700000000000
    (Bridge.Response 200 "ok").

(** A line whose stamp is a string. *)
Definition text_stamped : Bridge.reading :=
  Bridge.Line "{...}" (Some (VDict [("timestamp_ms", VStr "noon")])) 1700000000000
    (Bridge.Response 200 "ok").

End Samples.

(** ** Facts about the Python builtins *)

Section BuiltinFacts.

Lemma eq_str_true (v : value) (s : string) : eq_str v s = true <-> v = VStr s.
Proof.
  destruct v; simpl; split; try discriminate.
  - intros H; apply String.eqb_eq in H; now subst.
  - intros H; injection H as ->; apply String.eqb_refl.
Qed.

Lemma eq_str_false (v : value) (s : string) : eq_str v s = false <-> v <> VStr s.
Proof.
  rewrite <- eq_str_true. destruct (eq_str v s); split; congruence.
Qed.

Lemma str_int_not_empty (z : Z) : str_int z <> "".
Proof.
  unfold str_int, NilZero.string_of_int.
  destruct (Z.to_int z) as [d | d]; [destruct d |]; discriminate.
Qed.

Lemma free_of_app (sep : ascii) (a b : string) :
  free_of sep (a ++ b) = free_of sep a && free_of sep b.
Proof.
  induction a as [| c a IH]; simpl; [reflexivity |].
  now rewrite IH, andb_assoc.
Qed.

Lemma uint_free_of_comma (d : Decimal.uint) :
  free_of "," (NilEmpty.string_of_uint d) = true.
Proof. induction d; simpl; auto. Qed.

Lemma str_int_free_of_comma (z : Z) : free_of "," (str_int z) = true.
Proof.
  unfold str_int, NilZero.string_of_int, NilZero.string_of_uint.
  destruct (Z.to_int z) as [d | d].
  - destruct d; try reflexivity; apply uint_free_of_comma.
  - destruct d; try reflexivity; simpl; apply uint_free_of_comma.
Qed.

Lemma split_free (sep : ascii) (s : string) :
  free_of sep s = true -> split sep s = [s].
Proof.
  induction s as [| c s IH]; simpl; [reflexivity |].
  intros H; apply andb_prop in H as [Hc Hs].
  apply negb_true_iff in Hc; rewrite Hc, (IH Hs); reflexivity.
Qed.

Lemma split_field (sep : ascii) (a b : string) :
  free_of sep a = true ->
  split sep (a ++ String sep b) = a :: split sep b.
Proof.
  induction a as [| c a IH]; simpl.
  - intros _; now rewrite Ascii.eqb_refl.
  - intros H; apply andb_prop in H as [Hc Ha].
    apply negb_true_iff in Hc; rewrite Hc, (IH Ha); reflexivity.
Qed.

(** Splitting undoes joining when no field holds the separator. *)
Lemma split_join (l : list string) :
  l <> [] ->
  Forall (fun s => free_of "," s = true) l ->
  split "," (join "," l) = l.
Proof.
  unfold join.
  induction l as [| a l IH]; [congruence |].
  intros _ Hall; inversion Hall as [| ? ? Ha Hl]; subst.
  destruct l as [| b l].
  - simpl; now apply split_free.
  - change (String.concat "," (a :: b :: l))
      with (a ++ String "," (String.concat "," (b :: l))).
    rewrite split_field by assumption.
    f_equal; apply IH; [discriminate | assumption].
Qed.

Lemma join_not_empty (sep a : string) (l : list string) :
  a <> "" -> join sep (a :: l) <> "".
Proof.
  intros Ha; unfold join; destruct l; simpl.
  - assumption.
  - destruct a; [congruence | discriminate].
Qed.

End BuiltinFacts.

(** ** Properties of the backend *)

Module BackendProofs.
Import Backend Samples.

Section Helpers.
Context {env : Environment}.

Lemma next_id_above (ids : list Z) (x : Z) : In x ids -> (x < next_id ids)%Z.
Proof.
  unfold next_id; induction ids as [| y ids IH]; cbn [fold_right In]; [tauto |].
  intros [-> | Hin]; [lia |]; specialize (IH Hin); lia.
Qed.

(** Rewriting the row of the event that was just added touches no other
    row. *)
Lemma commit_last (evs : list Event.t) (ev ev' : Event.t) :
  Event.id ev = next_id (map Event.id evs) ->
  Event.id ev' = Event.id ev ->
  map (fun e => if (Event.id e =? Event.id ev')%Z then ev' else e) (evs ++ [ev])
  = (evs ++ [ev'])%list.
Proof.
  intros Hnew Hsame; rewrite map_app; simpl.
  rewrite Hsame, Z.eqb_refl; f_equal.
  rewrite <- (map_id evs) at 2; apply map_ext_in; intros e He.
  assert (Event.id e < next_id (map Event.id evs))%Z
    by (apply next_id_above, in_map, He).
  destruct (Z.eqb_spec (Event.id e) (Event.id ev)); [lia | reflexivity].
Qed.

Lemma recipients_app (a b : list effect) :
  recipients (a ++ b) = (recipients a ++ recipients b)%list.
Proof. unfold recipients; apply flat_map_app. Qed.

(** The loop of [notify_ngos] returns, for any provider: it appends one
    entry per responder, leaves the tables alone, and calls the provider
    once for each responder it can reach, whatever the earlier calls did. *)
Lemma notify_loop_returns (ngos : list NGO.t) (event : dict) :
  forall (msgs : list value) (w : world),
  exists tr,
    notify_loop ngos event msgs w
    = (inl (msgs ++ map (fun n => msg_entry n (alert_text event)) ngos)%list,
       mkWorld (events w) (ngos_table w) (trace w ++ tr)%list)
    /\ recipients tr = map NGO.phone (reachable_by_sms ngos).
Proof.
  induction ngos as [| ngo rest IH]; intros msgs w.
  - exists []; simpl; unfold ret; rewrite !app_nil_r; destruct w; auto.
  - cbn [notify_loop]; unfold bind, print, emit, reachable_by_sms; simpl.
    destruct (truthy_env TWILIO_SID && truthy (NGO.phone ngo)) eqn:Hsend.
    + unfold send_sms, bind, print, emit; simpl.
      match goal with
      | |- context [provider ?n] => destruct (provider n) as [e |] eqn:Hp
      end; simpl;
        match goal with
        | |- context [notify_loop rest event ?m ?w'] =>
            destruct (IH m w') as [tr [-> Hrec]]
        end; simpl;
        eexists; (split; [rewrite <- !app_assoc; simpl; reflexivity |]);
        simpl; rewrite Hrec; reflexivity.
    + unfold ret; simpl.
      match goal with
      | |- context [notify_loop rest event ?m ?w'] =>
          destruct (IH m w') as [tr [-> Hrec]]
      end; simpl.
      eexists; (split; [rewrite <- !app_assoc; simpl; reflexivity |]).
      simpl; rewrite Hrec; reflexivity.
Qed.

Lemma bind_returns {A B : Type} (m : M A) (k : A -> M B) (w w' : world) (a : A) :
  m w = (inl a, w') -> bind m k w = k a w'.
Proof. intros H; unfold bind; now rewrite H. Qed.

Lemma bind_raises {A B : Type} (m : M A) (k : A -> M B) (w w' : world) (e : exn) :
  m w = (inr e, w') -> bind m k w = (inr e, w').
Proof. intros H; unfold bind; now rewrite H. Qed.

(** The store keeps what the driver takes. *)
Lemma String_column_storable (v : value) :
  storable v = true -> String_column v = inl (stored v).
Proof.
  unfold stored; destruct v; cbn [String_column]; try reflexivity;
    try (cbn [storable]; discriminate).
  intros ->; reflexivity.
Qed.

Lemma String_column_unstorable (v : value) :
  storable v = false ->
  exists e, String_column v = inr e /\ (e = OverflowError \/ e = DBAPIError).
Proof.
  destruct v; cbn [String_column]; try (cbn [storable]; discriminate);
    try (intros _; eexists; split; [reflexivity | now right]).
  intros ->; eexists; split; [reflexivity | now left].
Qed.

Lemma stored_text (s : string) : stored (VStr s) = VStr s.
Proof. reflexivity. Qed.

Lemma add_event_stored (device_id event_type : value) (raw : string)
    (created_at : Z) (w : world) :
  storable device_id = true ->
  storable event_type = true ->
  let ev := Event.mk (next_id (map Event.id (events w))) (stored device_id)
              (stored event_type) raw created_at None "new" in
  add_event device_id event_type raw created_at w
  = (inl ev, mkWorld (events w ++ [ev]) (ngos_table w) (trace w)).
Proof.
  intros Hd Ht ev; unfold add_event.
  now rewrite (String_column_storable _ Hd), (String_column_storable _ Ht).
Qed.

Lemma add_event_refused (device_id event_type : value) (raw : string)
    (created_at : Z) (w : world) :
  storable device_id && storable event_type = false ->
  exists e,
    add_event device_id event_type raw created_at w = (inr e, w)
    /\ (e = OverflowError \/ e = DBAPIError).
Proof.
  intros Hno; unfold add_event.
  destruct (storable device_id) eqn:Hd.
  - rewrite (String_column_storable _ Hd).
    destruct (String_column_unstorable event_type Hno) as (e & -> & He).
    exists e; split; [reflexivity | exact He].
  - destruct (String_column_unstorable device_id Hd) as (e & -> & He).
    exists e; split; [reflexivity | exact He].
Qed.

Lemma add_ngo_stored (name phone email services : value) (w : world) :
  storable name && storable phone && storable email && storable services = true ->
  let n := NGO.mk (next_id (map NGO.id (ngos_table w))) (stored name) (stored phone)
             (stored email) VNone VNone (stored services) in
  add_ngo name phone email services w
  = (inl n, mkWorld (events w) (ngos_table w ++ [n]) (trace w)).
Proof.
  intros Hall n.
  apply andb_true_iff in Hall as [Hall Hs].
  apply andb_true_iff in Hall as [Hall He].
  apply andb_true_iff in Hall as [Hn Hp].
  unfold add_ngo.
  now rewrite (String_column_storable _ Hn), (String_column_storable _ Hp),
    (String_column_storable _ He), (String_column_storable _ Hs).
Qed.


(** A handler sees the value the body parses to. *)
Lemma receive_event_parses (json : value) (utcnow : Z) (w : world) (data : dict) :
  or_ json (VDict []) = VDict data ->
  receive_event json utcnow w
  = (print (nl ++ "📥 Received event: " ++ str (event_type_of data) ++ " from "
            ++ str (get data "device_id" (VStr "unknown"))) ;;
     ev <- add_event (get data "device_id" (VStr "unknown")) (event_type_of data)
             (str (VDict data)) utcnow ;;
     if eq_str (event_type_of data) "possible_encampment" then
       print "🔔 Critical alert detected - matching NGOs..." ;;
       ngos <- match_ngos_for_event data ;;
       match ngos with
       | _ :: _ =>
           notified <- notify_ngos ngos data ;;
           let ev := Event.set_matched_ngos (joined_ids ngos) ev in
           let ev := Event.set_status "notified" ev in
           commit_event ev ;;
           print ("✓ Event #" ++ str_int (Event.id ev) ++ " - Notified "
                  ++ str_int (len ngos) ++ " NGOs") ;;
           ret (VDict [("status", VStr "ok");
                       ("event_id", VInt (Event.id ev));
                       ("notified", VList notified);
                       ("message", VStr ("Alert sent to " ++ str_int (len ngos)
                                         ++ " NGOs"))])
       | [] =>
           print "⚠️ No NGOs available to notify!" ;;
           ret (VDict [("status", VStr "warning");
                       ("event_id", VInt (Event.id ev));
                       ("message", VStr "Event saved but no NGOs registered")])
       end
     else
       print ("✓ Event #" ++ str_int (Event.id ev)
              ++ " logged (no notification needed)") ;;
       ret (VDict [("status", VStr "ok");
                   ("event_id", VInt (Event.id ev));
                   ("message", VStr "Event logged")])) w.
Proof.
  intros Hdata; unfold receive_event; cbn [get_json].
  unfold bind at 1, ret at 1; rewrite Hdata; reflexivity.
Qed.

(** A request whose event the store refuses: the commit raises after the
    first console line, and no table has changed. *)
Lemma receive_event_refused (json : value) (utcnow : Z) (w : world) (data : dict) :
  or_ json (VDict []) = VDict data ->
  storable (get data "device_id" (VStr "unknown")) && storable (event_type_of data)
  = false ->
  exists e,
    receive_event json utcnow w
    = (inr e,
       mkWorld (events w) (ngos_table w)
         (trace w ++
          [Printed (nl ++ "📥 Received event: " ++ str (event_type_of data) ++ " from "
                    ++ str (get data "device_id" (VStr "unknown")))])%list)
    /\ (e = OverflowError \/ e = DBAPIError).
Proof.
  intros Hdata Hno; rewrite (receive_event_parses json utcnow w data Hdata).
  erewrite (bind_returns (print _)) by reflexivity.
  match goal with
  | |- context [bind (add_event ?d ?t ?r ?c) _ ?W] =>
      destruct (add_event_refused d t r c W Hno) as (e & He & Hkind)
  end.
  exists e; split; [| exact Hkind].
  erewrite bind_raises by exact He; reflexivity.
Qed.

(** The row [receive_event] adds before it decides about notification. *)
Lemma receive_event_logged (json : value) (utcnow : Z) (w : world) (data : dict) :
  or_ json (VDict []) = VDict data ->
  event_type_of data <> VStr "possible_encampment" ->
  storable (get data "device_id" (VStr "unknown")) = true ->
  storable (event_type_of data) = true ->
  let ev := Event.mk (next_id (map Event.id (events w)))
              (stored (get data "device_id" (VStr "unknown")))
              (stored (event_type_of data))
              (str (VDict data)) utcnow None "new" in
  receive_event json utcnow w
  = (inl (VDict [("status", VStr "ok");
                 ("event_id", VInt (Event.id ev));
                 ("message", VStr "Event logged")]),
     mkWorld (events w ++ [ev]) (ngos_table w)
       (trace w ++
        [Printed (nl ++ "📥 Received event: " ++ str (event_type_of data) ++ " from "
                  ++ str (get data "device_id" (VStr "unknown")));
         Printed ("✓ Event #" ++ str_int (Event.id ev)
                  ++ " logged (no notification needed)")])%list).
Proof.
  intros Hdata Htype Hd Ht ev; rewrite (receive_event_parses json utcnow w data Hdata).
  apply eq_str_false in Htype; rewrite Htype.
  erewrite (bind_returns (print _)) by reflexivity.
  erewrite (bind_returns (add_event _ _ _ _))
    by (apply add_event_stored; assumption).
  erewrite (bind_returns (print _)) by reflexivity.
  unfold ret; cbn [events ngos_table trace]; rewrite <- app_assoc; reflexivity.
Qed.

Lemma receive_event_unmatched (json : value) (utcnow : Z) (w : world) (data : dict) :
  or_ json (VDict []) = VDict data ->
  event_type_of data = VStr "possible_encampment" ->
  storable (get data "device_id" (VStr "unknown")) = true ->
  ngos_table w = [] ->
  let ev := Event.mk (next_id (map Event.id (events w)))
              (stored (get data "device_id" (VStr "unknown")))
              (VStr "possible_encampment")
              (str (VDict data)) utcnow None "new" in
  receive_event json utcnow w
  = (inl (VDict [("status", VStr "warning");
                 ("event_id", VInt (Event.id ev));
                 ("message", VStr "Event saved but no NGOs registered")]),
     mkWorld (events w ++ [ev]) (ngos_table w)
       (trace w ++
        [Printed (nl ++ "📥 Received event: possible_encampment from "
                  ++ str (get data "device_id" (VStr "unknown")));
         Printed "🔔 Critical alert detected - matching NGOs...";
         NgoQueryAll;
         Printed "WARNING: No NGOs registered in system!";
         Printed "⚠️ No NGOs available to notify!"])%list).
Proof.
  intros Hdata Htype Hd Hnone ev.
  rewrite (receive_event_parses json utcnow w data Hdata), Htype.
  rewrite (proj2 (eq_str_true _ _) eq_refl).
  erewrite (bind_returns (print _)) by reflexivity.
  erewrite (bind_returns (add_event _ _ _ _))
    by (apply add_event_stored; [exact Hd | reflexivity]).
  erewrite (bind_returns (print _)) by reflexivity.
  unfold match_ngos_for_event, NGO_query_all, bind, print, emit, ret;
    cbn [events ngos_table trace]; rewrite Hnone.
  cbn [events ngos_table trace]; rewrite <- !app_assoc; reflexivity.
Qed.

Lemma match_ngos_some (event_json : dict) (w : world) :
  ngos_table w <> [] ->
  let matched := firstn 10 (ngos_table w) in
  match_ngos_for_event event_json w
  = (inl matched,
     mkWorld (events w) (ngos_table w)
       (trace w ++
        [NgoQueryAll;
         Printed ("Matched " ++ str_int (len matched) ++ " NGOs for event type: "
                  ++ str (get event_json "event_type" (VStr "")))])%list).
Proof.
  intros Hsome matched; unfold match_ngos_for_event, NGO_query_all.
  unfold bind, print, emit, ret; cbn [fst snd events ngos_table trace].
  destruct (ngos_table w) as [| n rest] eqn:Htable; [congruence |].
  cbn [events ngos_table trace].
  subst matched; rewrite <- app_assoc; reflexivity.
Qed.

Lemma receive_event_notifies (json : value) (utcnow : Z) (w : world) (data : dict) :
  or_ json (VDict []) = VDict data ->
  event_type_of data = VStr "possible_encampment" ->
  storable (get data "device_id" (VStr "unknown")) = true ->
  ngos_table w <> [] ->
  let matched := firstn 10 (ngos_table w) in
  let ev := Event.mk (next_id (map Event.id (events w)))
              (stored (get data "device_id" (VStr "unknown")))
              (VStr "possible_encampment")
              (str (VDict data)) utcnow (Some (joined_ids matched)) "notified" in
  exists tr,
    receive_event json utcnow w
    = (inl (VDict [("status", VStr "ok");
                   ("event_id", VInt (Event.id ev));
                   ("notified",
                    VList (map (fun n => msg_entry n (alert_text data)) matched));
                   ("message",
                    VStr ("Alert sent to " ++ str_int (len matched) ++ " NGOs"))]),
       mkWorld (events w ++ [ev]) (ngos_table w) (trace w ++ tr)%list)
    /\ recipients tr = map NGO.phone (reachable_by_sms matched).
Proof.
  intros Hdata Htype Hd Hsome; cbv zeta.
  rewrite (receive_event_parses json utcnow w data Hdata), Htype.
  rewrite (proj2 (eq_str_true _ _) eq_refl).
  erewrite (bind_returns (print _)) by reflexivity.
  erewrite (bind_returns (add_event _ _ _ _))
    by (apply add_event_stored; [exact Hd | reflexivity]).
  erewrite (bind_returns (print _)) by reflexivity.
  erewrite (bind_returns (match_ngos_for_event _)) by (apply match_ngos_some; exact Hsome).
  cbn [events ngos_table trace].
  remember (firstn 10 (ngos_table w)) as matched eqn:Hmatched.
  destruct matched as [| m ms].
  { destruct (ngos_table w); [congruence | discriminate]. }
  match goal with
  | |- context [bind (notify_ngos _ _) _ ?W] =>
      destruct (notify_loop_returns (m :: ms) data [] W) as (tr & Hrun & Hrec)
  end.
  unfold notify_ngos; erewrite bind_returns by exact Hrun.
  erewrite (bind_returns (commit_event _)) by reflexivity.
  erewrite (bind_returns (print _)) by reflexivity.
  unfold ret, commit_event; cbn [events ngos_table trace].
  rewrite commit_last by reflexivity.
  eexists; split.
  - rewrite <- !app_assoc; reflexivity.
  - rewrite !recipients_app, Hrec; unfold recipients at 1 2 3 4.
    cbn [flat_map app]; now rewrite app_nil_r.
Qed.

Lemma receive_event_raises (json : value) (utcnow : Z) (w : world) :
  (forall data, or_ json (VDict []) <> VDict data) ->
  receive_event json utcnow w = (inr AttributeError, w).
Proof.
  intros Hno; unfold receive_event; cbn [get_json]; unfold bind at 1, ret at 1.
  destruct (or_ json (VDict [])) eqn:E; try reflexivity.
  now elim (Hno d).
Qed.

Lemma invariant_add (w : world) (ev : Event.t) (t : list NGO.t) (tr : list effect) :
  invariant w = true ->
  notified_has_match ev = true ->
  invariant (mkWorld (events w ++ [ev]) t tr) = true.
Proof.
  unfold invariant; cbn [events]; intros Hw Hev.
  rewrite forallb_app, Hw; cbn [forallb]; now rewrite Hev.
Qed.

Lemma receive_event_preserves (sent : body) (utcnow : Z) (w : world) :
  invariant w = true -> invariant (snd (receive_event sent utcnow w)) = true.
Proof.
  intros Hw; destruct sent as [| | json]; [exact Hw | exact Hw |].
  destruct (or_ json (VDict [])) as [| | | | | | data] eqn:Hdata;
    try (rewrite receive_event_raises; [exact Hw | intros d; congruence]).
  destruct (storable (get data "device_id" (VStr "unknown"))
            && storable (event_type_of data)) eqn:Hstore.
  - apply andb_true_iff in Hstore as [Hd Ht].
    destruct (eq_str (event_type_of data) "possible_encampment") eqn:Htype.
    + apply eq_str_true in Htype.
      destruct (ngos_table w) as [| n rest] eqn:Htable.
      * rewrite (receive_event_unmatched json utcnow w data Hdata Htype Hd Htable).
        now apply invariant_add.
      * assert (Hsome : ngos_table w <> []) by congruence.
        destruct (receive_event_notifies json utcnow w data Hdata Htype Hd Hsome)
          as (tr & -> & _).
        apply invariant_add; [exact Hw |].
        unfold notified_has_match; cbn [Event.status Event.matched_ngos].
        rewrite Htable; cbn [firstn map]; unfold joined_ids; cbn [map].
        apply negb_true_iff, String.eqb_neq, join_not_empty, str_int_not_empty.
    + apply eq_str_false in Htype.
      rewrite (receive_event_logged json utcnow w data Hdata Htype Hd Ht).
      apply invariant_add; [exact Hw |].
      unfold notified_has_match; reflexivity.
  - destruct (receive_event_refused json utcnow w data Hdata Hstore) as (e & -> & _).
    exact Hw.
Qed.

Lemma add_ngo_keeps_events (name phone email services : value) (w : world) :
  events (snd (add_ngo name phone email services w)) = events w.
Proof.
  unfold add_ngo.
  destruct (String_column name); [| reflexivity].
  destruct (String_column phone); [| reflexivity].
  destruct (String_column email); [| reflexivity].
  destruct (String_column services); reflexivity.
Qed.

Lemma ngos_keeps_events (method : string) (sent : body) (w : world) :
  events (snd (ngos method sent w)) = events w.
Proof.
  unfold ngos.
  destruct (String.eqb method "POST"); [| reflexivity].
  destruct sent as [| | json]; try reflexivity.
  cbn [get_json]; unfold bind at 1, ret at 1.
  destruct json as [| | | | | | j]; try reflexivity.
  destruct (lookup j "name") as [name |]; [| reflexivity].
  unfold bind at 1.
  pose proof (add_ngo_keeps_events name (get j "phone" VNone) (get j "email" VNone)
                (get j "services" (VStr "")) w) as Hkeep.
  destruct (add_ngo name (get j "phone" VNone) (get j "email" VNone)
              (get j "services" (VStr "")) w) as [[n | e] w'];
    cbn [snd] in Hkeep; [| exact Hkeep].
  unfold bind, print, emit, ret; cbn [snd events]; exact Hkeep.
Qed.

Lemma handle_preserves (r : request) (w : world) :
  invariant w = true -> invariant (snd (handle r w)) = true.
Proof.
  destruct r as [sent utcnow | method sent |]; cbn [handle].
  - apply receive_event_preserves.
  - unfold invariant; now rewrite ngos_keeps_events.
  - reflexivity.
Qed.

End Helpers.

(** *** Matching on a critical event *)




(** *** The policy gate *)




(** *** No responder on file *)

(** C7, as stated, fails: with no responder on file, a request of type
    "possible_encampment" whose [device_id] is a JSON array is refused by
    the store at the commit; the handler raises instead of answering with
    the warning, and the event is not persisted. *)
Lemma C7_counterexample_unstorable_device :
  or_ (VDict listed_device) (VDict []) = VDict listed_device
  /\ event_type_of listed_device = VStr "possible_encampment"
  /\ ngos_table empty_world = []
  /\ exists tr,
       @receive_event offline (VDict listed_device) 100 empty_world
       = (inr DBAPIError, mkWorld [] [] tr).
Proof.
  split; [reflexivity | split; [reflexivity | split; [reflexivity |]]].
  eexists; vm_compute; reflexivity.
Qed.

(** C7, amended: an ingest request whose event type is
    "possible_encampment" and whose device id the store takes, received
    while no responder is on file, returns a response with status "warning"
    and stores one new event, whose status stays "new" and whose
    [matched_ngos] stays unset; the provider is not called. *)
Theorem C7_no_responders_warns {env : Environment}
    (json : value) (utcnow : Z) (w : world) (data : dict) :
  or_ json (VDict []) = VDict data ->
  event_type_of data = VStr "possible_encampment" ->
  storable (get data "device_id" (VStr "unknown")) = true ->
  ngos_table w = [] ->
  exists (ev : Event.t) (tr : list effect),
    receive_event json utcnow w
    = (inl (VDict [("status", VStr "warning");
                   ("event_id", VInt (Event.id ev));
                   ("message", VStr "Event saved but no NGOs registered")]),
       mkWorld (events w ++ [ev]) (ngos_table w) (trace w ++ tr)%list)
    /\ Event.status ev = "new"
    /\ Event.matched_ngos ev = None
    /\ Event.event_type ev = VStr "possible_encampment"
    /\ Event.device_id ev = stored (get data "device_id" (VStr "unknown"))
    /\ outcomes tr = [].
Proof.
  intros Hdata Htype Hd Hnone.
  do 2 eexists; split;
    [exact (receive_event_unmatched json utcnow w data Hdata Htype Hd Hnone) |].
  repeat split.
Qed.

Lemma C7_witness :
  exists (ev : Event.t) (tr : list effect),
    @receive_event offline (VDict encampment) 100 empty_world
    = (inl (VDict [("status", VStr "warning");
                   ("event_id", VInt (Event.id ev));
                   ("message", VStr "Event saved but no NGOs registered")]),
       mkWorld (events empty_world ++ [ev]) (ngos_table empty_world)
         (trace empty_world ++ tr)%list)
    /\ Event.status ev = "new"
    /\ Event.matched_ngos ev = None
    /\ Event.event_type ev = VStr "possible_encampment"
    /\ Event.device_id ev = @stored offline (get encampment "device_id" (VStr "unknown"))
    /\ outcomes tr = [].
Proof.
  apply (@C7_no_responders_warns offline (VDict encampment) 100 empty_world
           encampment); reflexivity.
Defined.

(** *** Extraction of the event type *)

(** C10, as stated, fails: a request without a body that parses as JSON
    never reaches the fallback.  [request.get_json()] answers a zero-length
    body with the status 400 and a request that is not declared as JSON
    with the status 415, and in both cases nothing is stored. *)
Lemma C10_counterexample_unreadable_body :
  @receive_event offline Unparsable 100 empty_world
  = (inr (HTTPException 400), empty_world)
  /\ @receive_event offline NotJson 100 empty_world
     = (inr (HTTPException 415), empty_world).
Proof. split; reflexivity. Qed.

(** C10, amended: when the [event] key of the request is missing or holds
    a false value (the empty string, null, 0 and false are such values),
    the event type is the value under [event_type] if that one is present
    and true, and "unknown" if it is missing or false as well; a request
    whose body is the JSON value null or the empty object returns the
    "Event logged" response and stores an event with device_id "unknown"
    and event_type "unknown". *)
Theorem C10_event_type_fallback {env : Environment}
    (data : dict) (utcnow : Z) (w : world) :
  absent_or_falsy data "event" = true ->
  (forall v, lookup data "event_type" = Some v -> truthy v = true ->
             event_type_of data = v)
  /\ (absent_or_falsy data "event_type" = true ->
      event_type_of data = VStr "unknown")
  /\ Forall (fun v => absent_or_falsy [("event", v)] "event" = true)
        [VStr ""; VNone; VInt 0; VBool false]
  /\ Forall (fun json : value =>
               exists (ev : Event.t) (tr : list effect),
                 receive_event json utcnow w
                 = (inl (VDict [("status", VStr "ok");
                                ("event_id", VInt (Event.id ev));
                                ("message", VStr "Event logged")]),
                    mkWorld (events w ++ [ev]) (ngos_table w) (trace w ++ tr)%list)
                 /\ Event.device_id ev = VStr "unknown"
                 /\ Event.event_type ev = VStr "unknown"
                 /\ Event.status ev = "new")
        [VNone; VDict []].
Proof.
  intros Hevent.
  assert (Hfirst : truthy (get data "event" VNone) = false).
  { unfold absent_or_falsy in Hevent; unfold get.
    destruct (lookup data "event"); [now apply negb_true_iff | reflexivity]. }
  repeat split.
  - intros v Hv Htrue; unfold event_type_of, or_, get.
    fold (get data "event" VNone); rewrite Hfirst, Hv, Htrue; reflexivity.
  - intros Hsecond; unfold event_type_of, or_ at 2; rewrite Hfirst.
    unfold absent_or_falsy in Hsecond; unfold or_, get.
    destruct (lookup data "event_type") as [v |]; [| reflexivity].
    apply negb_true_iff in Hsecond; now rewrite Hsecond.
  - repeat constructor.
  - repeat constructor;
      (do 2 eexists; split;
       [apply (receive_event_logged _ utcnow w []);
        [reflexivity | discriminate | reflexivity | reflexivity]
       | repeat split]).
Qed.

Lemma C10_witness :
  (forall v, lookup [("event", VStr ""); ("event_type", VStr "motion")] "event_type"
             = Some v ->
             truthy v = true ->
             event_type_of [("event", VStr ""); ("event_type", VStr "motion")] = v)
  /\ (absent_or_falsy [("event", VStr ""); ("event_type", VStr "motion")] "event_type"
      = true ->
      event_type_of [("event", VStr ""); ("event_type", VStr "motion")]
      = VStr "unknown")
  /\ Forall (fun v => absent_or_falsy [("event", v)] "event" = true)
        [VStr ""; VNone; VInt 0; VBool false]
  /\ Forall (fun json : value =>
               exists (ev : Event.t) (tr : list effect),
                 @receive_event offline json 100 empty_world
                 = (inl (VDict [("status", VStr "ok");
                                ("event_id", VInt (Event.id ev));
                                ("message", VStr "Event logged")]),
                    mkWorld (events empty_world ++ [ev]) (ngos_table empty_world)
                      (trace empty_world ++ tr)%list)
                 /\ Event.device_id ev = VStr "unknown"
                 /\ Event.event_type ev = VStr "unknown"
                 /\ Event.status ev = "new")
        [VNone; VDict []].
Proof.
  apply (@C10_event_type_fallback offline
           [("event", VStr ""); ("event_type", VStr "motion")] 100 empty_world).
  reflexivity.
Defined.

(** *** The invariant of the event table *)

(** C6: if every stored event with status "notified" lists at least one
    matched responder, the same holds after any sequence of requests to the
    ingest endpoint (whatever the event type), the responder endpoint and
    the bulk clear. *)
Theorem C6_notified_lists_a_responder {env : Environment}
    (rs : list request) (w : world) :
  invariant w = true -> invariant (serve rs w) = true.
Proof.
  revert w; induction rs as [| r rs IH]; intros w Hw; cbn [serve].
  - exact Hw.
  - apply IH, handle_preserves, Hw.
Qed.

Lemma C6_witness :
  invariant
    (@serve flaky
       [Ngos "POST" (VDict [("name", VStr "Shelter A"); ("phone", VStr "+15550001")]);
        PostEvent (VDict encampment) 100;
        PostEvent (VDict motion) 101;
        PostClear;
        PostEvent (VDict encampment_under_event) 102]
       empty_world) = true.
Proof.
  apply (@C6_notified_lists_a_responder flaky); reflexivity.
Defined.

(** *** Dispatch *)




(** *** The message template *)

(** C5: with Shelter A on file, a request that gives the critical type
    under the [event] key has event type "possible_encampment" and is
    notified, yet the message built for the responder is the informational
    one, because [notify_ngos] reads the [event_type] key of the request. *)
Theorem C5_event_key_gets_informational_text {env : Environment} (utcnow : Z) :
  event_type_of encampment_under_event = VStr "possible_encampment"
  /\ exists (ev : Event.t) (tr : list effect),
       receive_event (VDict encampment_under_event) utcnow one_shelter
       = (inl (VDict
                 [("status", VStr "ok");
                  ("event_id", VInt 1);
                  ("notified",
                   VList
                     [VDict
                        [("ngo", VStr "Shelter A");
                         ("phone", VStr "+15550001");
                         ("message",
                          VStr "⚠️ NOTIFICATION: Motion detected at unknown. Monitoring situation.")]]);
                  ("message", VStr "Alert sent to 1 NGOs")]),
          mkWorld [ev] [shelter_a] tr)
       /\ Event.event_type ev = VStr "possible_encampment"
       /\ Event.status ev = "notified".
Proof.
  split; [reflexivity |].
  destruct (receive_event_notifies (VDict encampment_under_event) utcnow one_shelter
              encampment_under_event eq_refl eq_refl eq_refl) as (tr & Hrun & _);
    [discriminate |].
  do 2 eexists; split; [exact Hrun | split; reflexivity].
Qed.

(** *** The scenarios of the test plan, evaluated *)

Example ingest_motion_is_logged :
  let (response, w) := @receive_event offline (VDict motion) 100 empty_world in
  response = inl (VDict [("status", VStr "ok"); ("event_id", VInt 1);
                         ("message", VStr "Event logged")])
  /\ map Event.status (events w) = ["new"].
Proof. split; reflexivity. Qed.

Example ingest_encampment_notifies_shelter_a :
  let (_, w) := @receive_event offline (VDict encampment) 100 one_shelter in
  map Event.status (events w) = ["notified"]
  /\ map Event.matched_ngos (events w) = [Some "1"].
Proof. split; reflexivity. Qed.

Example ingest_encampment_without_responders :
  let (response, w) := @receive_event offline (VDict encampment) 100 empty_world in
  response = inl (VDict [("status", VStr "warning"); ("event_id", VInt 1);
                         ("message", VStr "Event saved but no NGOs registered")])
  /\ map Event.status (events w) = ["new"].
Proof. split; reflexivity. Qed.

Example clear_after_five_events :
  let w := @serve offline
             [PostEvent (VDict motion) 1; PostEvent (VDict motion) 2;
              PostEvent (VDict encampment) 3; PostEvent VNone 4;
              PostEvent (VDict motion) 5] empty_world in
  let (response, w') := clear_events w in
  response = inl (VDict [("status", VStr "ok"); ("deleted", VInt 5);
                         ("message", VStr "Cleared 5 events")])
  /\ events w' = [].
Proof. split; reflexivity. Qed.

Example ingest_of_a_list_raises :
  @receive_event offline (VList [VInt 1]) 100 one_shelter
  = (inr AttributeError, one_shelter).
Proof. reflexivity. Qed.

Example ingest_of_a_listed_device_stores_nothing :
  let (response, w) := @receive_event offline (VDict listed_device) 100 one_shelter in
  response = inr DBAPIError /\ events w = [] /\ length (trace w) = 1%nat.
Proof. repeat split. Qed.

Example ingest_of_a_number_stores_its_text :
  let (_, w) :=
    @receive_event offline (VDict [("device_id", VInt 7); ("event", VBool true)]) 100
      empty_world in
  map Event.device_id (events w) = [VStr "7"]
  /\ map Event.event_type (events w) = [VStr "1"].
Proof. split; reflexivity. Qed.

Example ingest_of_a_huge_device_id_raises :
  fst (@receive_event offline (VDict [("device_id", VInt (2 ^ 70))]) 100 empty_world)
  = inr OverflowError.
Proof. reflexivity. Qed.

End BackendProofs.

(** ** Properties of the serial bridge *)

Module BridgeProofs.
Import Bridge Samples.

Lemma posted_app (a b : list effect) : posted (a ++ b) = (posted a ++ posted b)%list.
Proof. unfold posted; apply flat_map_app. Qed.

Lemma posted_send (payload : dict) (backend : reply) :
  posted (send_to_backend payload backend) = [payload].
Proof. destruct backend; reflexivity. Qed.

Lemma posted_on_exception (e : exn) : posted (on_exception e) = [].
Proof. reflexivity. Qed.

Lemma as_int_number (v : value) (z : Z) :
  as_int v = Some z -> as_number v = Some (Int z).
Proof. destruct v; cbn [as_int as_number]; congruence. Qed.

(** The guard on integers. *)
Lemma too_soon_ints (last current : value) (l c : Z) :
  as_int last = Some l ->
  as_int current = Some c ->
  too_soon last current = inl ((l >? 0)%Z && (c - l <? MIN_INTERVAL * 1000)%Z).
Proof.
  intros Hl Hc; unfold too_soon, gt_literal, sub.
  rewrite (as_int_number _ _ Hl), (as_int_number _ _ Hc).
  destruct (l >? 0)%Z; reflexivity.
Qed.

(** The guard when the watermark is set and the stamp is no number. *)
Lemma too_soon_no_number (last current : value) (l : Z) :
  as_int last = Some l ->
  (0 < l)%Z ->
  as_number current = None ->
  too_soon last current = inr TypeError.
Proof.
  intros Hl Hset Hc; unfold too_soon, gt_literal, sub.
  rewrite (as_int_number _ _ Hl), Hc, (proj2 (Z.gtb_lt l 0) Hset); reflexivity.
Qed.

(** What an iteration on a non-empty line does, by the verdict of the
    guard. *)
Lemma iteration_line (last : value) (line : string) (loads : option value)
    (now_ms : Z) (backend : reply) (payload : dict) :
  line <> "" ->
  payload_of line loads now_ms = inl payload ->
  let current_time := get payload "timestamp_ms" VNone in
  let r := Line line loads now_ms backend in
  match too_soon last current_time with
  | inl true => fst (iteration last r) = last /\ posted (snd (iteration last r)) = []
  | inl false =>
      fst (iteration last r) = current_time
      /\ posted (snd (iteration last r)) = [payload]
  | inr _ => fst (iteration last r) = last /\ posted (snd (iteration last r)) = []
  end.
Proof.
  intros Hline Hpayload current_time r; subst r; unfold iteration.
  apply String.eqb_neq in Hline; rewrite Hline, Hpayload; fold current_time.
  destruct (too_soon last current_time) as [[|] | e]; cbn [fst snd];
    rewrite ?posted_app, ?posted_send, ?posted_on_exception; split; reflexivity.
Qed.

(** With the watermark set, an iteration on a reading without a float
    stamp either leaves it and forwards nothing, or forwards the one
    payload whose integer stamp lies at least the interval above it and
    moves the watermark there. *)
Lemma iteration_when_set (last : value) (w : Z) (r : reading) :
  as_int last = Some w ->
  (0 < w)%Z ->
  float_stamped r = false ->
  (fst (iteration last r) = last /\ posted (snd (iteration last r)) = [])
  \/ (exists line loads now_ms backend payload t,
        r = Line line loads now_ms backend
        /\ payload_of line loads now_ms = inl payload
        /\ get payload "timestamp_ms" VNone = VInt t
        /\ (w + MIN_INTERVAL * 1000 <= t)%Z
        /\ fst (iteration last r) = VInt t
        /\ posted (snd (iteration last r)) = [payload]).
Proof.
  intros Hlast Hset Hfloat.
  destruct r as [line loads now_ms backend | line e | e |];
    [| left; cbn [iteration]; destruct (String.eqb line ""); split; reflexivity
     | left; split; reflexivity ..].
  destruct (String.eqb_spec line "") as [-> | Hline]; [left; split; reflexivity |].
  destruct (payload_of line loads now_ms) as [payload | e] eqn:Hpayload.
  - pose proof (iteration_line last line loads now_ms backend payload
                  Hline Hpayload) as Hit; cbv zeta in Hit.
    cbn [float_stamped] in Hfloat; rewrite Hpayload in Hfloat.
    destruct (get payload "timestamp_ms" VNone) as [| b | t | f | s | l | d] eqn:Hstamp;
      try discriminate Hfloat;
      try (match type of Hit with
           | context [too_soon last ?c] =>
               rewrite (too_soon_no_number last c w Hlast Hset eq_refl) in Hit
           end; left; exact Hit).
    + rewrite (too_soon_ints last (VBool b) w _ Hlast eq_refl),
        (proj2 (Z.gtb_lt w 0) Hset) in Hit; cbn [andb] in Hit.
      destruct ((if b then 1 else 0) - w <? MIN_INTERVAL * 1000)%Z eqn:Hcmp;
        [left; exact Hit |].
      apply Z.ltb_ge in Hcmp; unfold MIN_INTERVAL in Hcmp; destruct b; lia.
    + rewrite (too_soon_ints last (VInt t) w t Hlast eq_refl),
        (proj2 (Z.gtb_lt w 0) Hset) in Hit; cbn [andb] in Hit.
      destruct (t - w <? MIN_INTERVAL * 1000)%Z eqn:Hcmp; [left; exact Hit |].
      apply Z.ltb_ge in Hcmp; right.
      exists line, loads, now_ms, backend, payload, t.
      repeat split; try tauto; lia.
  - left; unfold iteration.
    apply String.eqb_neq in Hline; rewrite Hline, Hpayload; split; reflexivity.
Qed.

Lemma loop_cons (last : value) (r : reading) (rs : list reading) :
  r <> Interrupt ->
  loop last (r :: rs)
  = (fst (loop (fst (iteration last r)) rs),
     (snd (iteration last r) ++ snd (loop (fst (iteration last r)) rs))%list).
Proof.
  intros Hr; cbn [loop].
  destruct r; try congruence;
    destruct (iteration last _) as [l1 d1]; cbn [fst snd];
    destruct (loop l1 rs); reflexivity.
Qed.

(** *** Rate limiting of two consecutive payloads *)

(** C3, as stated, fails: from the initial state a payload stamped 0 is
    forwarded and leaves the watermark at 0; the payload stamped 500 that
    follows it, less than the interval later, is forwarded as well and moves
    the watermark to 500. *)
Lemma C3_counterexample_zero_stamp :
  payload_of "{...}"
    (Some (VDict [("event", VStr "motion"); ("timestamp_ms", VInt 0)])) 1700000000000
  = inl (stamped_payload 0)
  /\ payload_of "{...}"
       (Some (VDict [("event", VStr "motion"); ("timestamp_ms", VInt 500)]))
       1700000000000
     = inl (stamped_payload 500)
  /\ (500 - 0 < MIN_INTERVAL * 1000)%Z
  /\ posted (snd (iteration last_event_time (stamped 0))) = [stamped_payload 0]
  /\ fst (loop last_event_time [stamped 0; stamped 500]) = VInt 500
  /\ posted (snd (loop last_event_time [stamped 0; stamped 500]))
     = [stamped_payload 0; stamped_payload 500].
Proof. repeat split. Qed.

(** C3, amended: take two consecutive non-empty lines whose payloads carry
    the integer stamps [t1] and [t2], the first of which is forwarded and
    has a positive stamp.  The first moves the watermark to its stamp.  If
    [t2 - t1] is less than the interval, the second is not forwarded and the
    watermark stays where the first put it; if it is at least the interval,
    the second is forwarded too and the watermark moves on to its stamp. *)
Theorem C3_rate_limit_pair
    (last : value) (line1 line2 : string) (loads1 loads2 : option value)
    (now1 now2 : Z) (backend1 backend2 : reply) (payload1 payload2 : dict)
    (t1 t2 : Z) :
  line1 <> "" ->
  line2 <> "" ->
  payload_of line1 loads1 now1 = inl payload1 ->
  payload_of line2 loads2 now2 = inl payload2 ->
  as_int (get payload1 "timestamp_ms" VNone) = Some t1 ->
  as_int (get payload2 "timestamp_ms" VNone) = Some t2 ->
  too_soon last (get payload1 "timestamp_ms" VNone) = inl false ->
  (0 < t1)%Z ->
  let r1 := Line line1 loads1 now1 backend1 in
  let r2 := Line line2 loads2 now2 backend2 in
  fst (iteration last r1) = get payload1 "timestamp_ms" VNone
  /\ posted (snd (iteration last r1)) = [payload1]
  /\ ((t2 - t1 < MIN_INTERVAL * 1000)%Z ->
      fst (loop last [r1; r2]) = get payload1 "timestamp_ms" VNone
      /\ posted (snd (loop last [r1; r2])) = [payload1])
  /\ ((MIN_INTERVAL * 1000 <= t2 - t1)%Z ->
      fst (loop last [r1; r2]) = get payload2 "timestamp_ms" VNone
      /\ posted (snd (loop last [r1; r2])) = [payload1; payload2]).
Proof.
  intros Hline1 Hline2 Hp1 Hp2 Hs1 Hs2 Hfirst Hpos r1 r2.
  pose proof (iteration_line last line1 loads1 now1 backend1 payload1 Hline1 Hp1)
    as H1; cbv zeta in H1; rewrite Hfirst in H1; fold r1 in H1.
  destruct H1 as [Hw1 Hd1].
  pose proof (iteration_line (get payload1 "timestamp_ms" VNone) line2 loads2 now2
                backend2 payload2 Hline2 Hp2) as H2; cbv zeta in H2; fold r2 in H2.
  rewrite (too_soon_ints _ _ t1 t2 Hs1 Hs2), (proj2 (Z.gtb_lt t1 0) Hpos) in H2;
    cbn [andb] in H2.
  assert (Hloop : loop last [r1; r2]
                  = (fst (iteration (get payload1 "timestamp_ms" VNone) r2),
                     (snd (iteration last r1)
                      ++ snd (iteration (get payload1 "timestamp_ms" VNone) r2))%list)).
  { rewrite loop_cons by (subst r1; discriminate).
    rewrite Hw1, loop_cons by (subst r2; discriminate).
    cbn [loop fst snd]; now rewrite app_nil_r. }
  rewrite Hloop; cbn [fst snd]; rewrite posted_app, Hd1.
  split; [exact Hw1 | split; [reflexivity |]].
  split; intros Hcmp.
  - apply Z.ltb_lt in Hcmp; rewrite Hcmp in H2.
    destruct H2 as [-> ->]; split; reflexivity.
  - apply Z.ltb_ge in Hcmp; rewrite Hcmp in H2.
    destruct H2 as [-> ->]; split; reflexivity.
Qed.

Lemma C3_witness :
  fst (iteration last_event_time (stamped 1000))
  = get (stamped_payload 1000) "timestamp_ms" VNone
  /\ posted (snd (iteration last_event_time (stamped 1000))) = [stamped_payload 1000]
  /\ ((1500 - 1000 < MIN_INTERVAL * 1000)%Z ->
      fst (loop last_event_time [stamped 1000; stamped 1500])
      = get (stamped_payload 1000) "timestamp_ms" VNone
      /\ posted (snd (loop last_event_time [stamped 1000; stamped 1500]))
         = [stamped_payload 1000])
  /\ ((MIN_INTERVAL * 1000 <= 1500 - 1000)%Z ->
      fst (loop last_event_time [stamped 1000; stamped 1500])
      = get (stamped_payload 1500) "timestamp_ms" VNone
      /\ posted (snd (loop last_event_time [stamped 1000; stamped 1500]))
         = [stamped_payload 1000; stamped_payload 1500]).
Proof.
  apply (C3_rate_limit_pair last_event_time "{...}" "{...}"
           (Some (VDict [("event", VStr "motion"); ("timestamp_ms", VInt 1000)]))
           (Some (VDict [("event", VStr "motion"); ("timestamp_ms", VInt 1500)]))
           1700000000000 1700000000000 (Response 200 "ok") (Response 200 "ok")
           (stamped_payload 1000) (stamped_payload 1500) 1000 1500).
  - discriminate.
  - discriminate.
  - reflexivity.
  - reflexivity.
  - reflexivity.
  - reflexivity.
  - reflexivity.
  - lia.
Defined.

(** *** The watermark *)

(** C8, as stated, fails, in two ways.  First, the watermark stands at
    5000 when a line stamped [NaN] arrives.  Every comparison with [NaN] is
    false, so the line passes the guard and the watermark becomes [NaN],
    whether the HTTP client then sends the payload or refuses it; the next
    line, stamped 1, is forwarded as well, although 1 is below 5000 plus
    the interval, and the watermark drops to 1.  Second, a forwarded
    payload with a negative stamp sets the watermark to that stamp, which
    the guard takes for unset: from the initial state the stamps -1 and
    -5000 are both forwarded and the watermark falls from -1 to -5000. *)
Lemma C8_counterexample_nan_stamp :
  Forall (fun backend =>
            let nan_line :=
              Line "{...}" (Some (VDict [("timestamp_ms", VFloat PrimFloat.nan)]))
                1700000000000 backend in
            fst (iteration (VInt 5000) nan_line) = VFloat PrimFloat.nan
            /\ fst (loop (VInt 5000) [nan_line; stamped 1]) = VInt 1
            /\ posted (snd (loop (VInt 5000) [nan_line; stamped 1]))
               = [[("timestamp_ms", VFloat PrimFloat.nan);
                   ("device_id", VStr "ELEGOO_PROTO_01")];
                  stamped_payload 1])
    [Response 200 "ok"; not_json_compliant]
  /\ (1 < 5000 + MIN_INTERVAL * 1000)%Z
  /\ fst (loop last_event_time [stamped (-1)]) = VInt (-1)
  /\ loop (VInt (-1)) [stamped (-5000)]
     = (VInt (-5000),
        [Printed "Serial: {...}"; Posted BACKEND_URL (stamped_payload (-5000));
         Printed "POST 200 ok"]).
Proof.
  split; [repeat constructor | split; [reflexivity | split; reflexivity]].
Qed.

(** C8, amended: once the watermark is a positive integer, and as long as
    no line carries a float stamp, it never decreases however many
    readings follow; every payload forwarded afterwards carries an integer
    stamp at least the interval above it; and as long as the stamps that
    arrive stay below the watermark plus the interval, nothing is forwarded
    and the watermark does not move, for any number of readings. *)
Theorem C8_watermark_only_moves_forward (last : value) (w : Z) (rs : list reading) :
  as_int last = Some w ->
  (0 < w)%Z ->
  existsb float_stamped rs = false ->
  (exists w', as_int (fst (loop last rs)) = Some w' /\ (w <= w')%Z)
  /\ (forall payload, In payload (posted (snd (loop last rs))) ->
        exists t, get payload "timestamp_ms" VNone = VInt t
                  /\ (w + MIN_INTERVAL * 1000 <= t)%Z)
  /\ (stamps_below (w + MIN_INTERVAL * 1000) rs ->
      fst (loop last rs) = last /\ posted (snd (loop last rs)) = []).
Proof.
  revert last w; induction rs as [| r rs IH]; intros last w Hlast Hset Hfloat.
  - cbn [loop fst snd posted flat_map]; repeat split.
    + exists w; split; [exact Hlast | lia].
    + intros payload [].
  - cbn [existsb] in Hfloat; apply orb_false_elim in Hfloat as [Hr Hrs].
    assert (Hstop : r = Interrupt \/ r <> Interrupt)
      by (destruct r; [right | right | right | left]; congruence).
    destruct Hstop as [-> | Hgo].
    + cbn [loop fst snd]; repeat split.
      * exists w; split; [exact Hlast | lia].
      * intros payload [].
    + rewrite loop_cons by exact Hgo; cbn [fst snd]; rewrite posted_app.
      destruct (iteration_when_set last w r Hlast Hset Hr)
        as [[Hw Hd] | (line & loads & now_ms & backend & payload1 & t & Hline & Hp
                       & Hs & Hge & Hw & Hd)]; rewrite Hw, Hd; cbn [app].
      * destruct (IH last w Hlast Hset Hrs) as (Hmono & Hposted & Hquiet).
        split; [exact Hmono | split; [exact Hposted |]].
        intros Hbelow; apply Hquiet.
        intros l lo n b p t Hin; apply (Hbelow l lo n b p t); now right.
      * assert (Hset' : (0 < t)%Z) by (unfold MIN_INTERVAL in Hge; lia).
        destruct (IH (VInt t) t eq_refl Hset' Hrs) as ((w' & Hw' & Hle) & Hposted & _).
        split; [| split].
        -- exists w'; split; [exact Hw' | unfold MIN_INTERVAL in Hge; lia].
        -- intros payload [<- | Hin]; [exists t; split; assumption |].
           destruct (Hposted payload Hin) as (t' & Ht' & Hge').
           exists t'; split; [exact Ht' | unfold MIN_INTERVAL in *; lia].
        -- intros Hbelow; exfalso.
           assert (t < w + MIN_INTERVAL * 1000)%Z; [| lia].
           apply (Hbelow line loads now_ms backend payload1 t);
             [left; exact Hline | exact Hp | now rewrite Hs].
Qed.

Lemma C8_witness :
  (exists w', as_int (fst (loop (VInt 1000) [stamped 1500; stamped 4000; stamped 100]))
              = Some w' /\ (1000 <= w')%Z)
  /\ (forall payload,
        In payload
          (posted (snd (loop (VInt 1000) [stamped 1500; stamped 4000; stamped 100]))) ->
        exists t, get payload "timestamp_ms" VNone = VInt t
                  /\ (1000 + MIN_INTERVAL * 1000 <= t)%Z)
  /\ (stamps_below (1000 + MIN_INTERVAL * 1000)
        [stamped 1500; stamped 4000; stamped 100] ->
      fst (loop (VInt 1000) [stamped 1500; stamped 4000; stamped 100]) = VInt 1000
      /\ posted (snd (loop (VInt 1000) [stamped 1500; stamped 4000; stamped 100]))
         = []).
Proof.
  apply (C8_watermark_only_moves_forward (VInt 1000) 1000
           [stamped 1500; stamped 4000; stamped 100]).
  - reflexivity.
  - lia.
  - reflexivity.
Defined.

(** *** Port selection *)

Lemma enumerate_answer {host : Host} (first : port) (others : list port)
    (choice : string) (idx : Z) :
  comports = first :: others ->
  stdin = Answers choice ->
  String.eqb (lower choice) "q" = false ->
  (if String.eqb choice "" then 1%Z
   else match int choice with Some i => i | None => 1%Z end) = idx ->
  exists p,
    nth_error (first :: others)
      (Z.to_nat (Z.max 1 (Z.min (len (first :: others)) idx) - 1)) = Some p
    /\ snd enumerate_ports = Returns (Some (device p)).
Proof.
  intros Hports Hin Hq Hidx.
  set (k := Z.to_nat (Z.max 1 (Z.min (len (first :: others)) idx) - 1)).
  assert (Hk : (k < length (first :: others))%nat).
  { subst k; unfold len; cbn [length]; lia. }
  destruct (nth_error (first :: others) k) as [p |] eqn:Hp;
    [| apply nth_error_None in Hp; lia].
  exists p; split; [reflexivity |].
  unfold enumerate_ports; rewrite Hports, Hin, Hq.
  assert (Hpick : nth_error (map (fun q => (device q, description q)) (first :: others)) k
                  = Some (device p, description p))
    by (rewrite nth_error_map, Hp; reflexivity).
  assert (Hlen : len (map (fun q => (device q, description q)) (first :: others))
                 = len (first :: others))
    by (unfold len; now rewrite length_map).
  destruct (String.eqb choice "").
  - subst idx; rewrite Hlen; fold k; rewrite Hpick; reflexivity.
  - destruct (int choice); subst idx; rewrite Hlen; fold k; rewrite Hpick;
      reflexivity.
Qed.

Lemma choose_port_enumerates {host : Host} (preferred : option string) :
  preferred_unusable preferred = true ->
  snd (choose_port preferred) = snd enumerate_ports.
Proof.
  unfold preferred_unusable, choose_port.
  destruct preferred as [p |]; [| reflexivity].
  destruct (String.eqb p ""); cbn [negb orb]; [reflexivity |].
  destruct (Serial_probe p); [| discriminate].
  intros _; destruct enumerate_ports; reflexivity.
Qed.

(** C9: when [choose_port] gets to enumerate the ports (no preferred port
    that opens): with no port it returns nothing; with [count] ports, at an
    interactive terminal, a blank answer gives the first port, an answer
    that lowers to "q" gives nothing, an answer that reads as the integer
    [idx] gives the port number [max(1, min(count, idx))], counted from 1
    (so [idx] itself when it is in range), and an answer that does not read
    as an integer gives the first port; when standard input is no terminal,
    or asking it raises an exception, the first port is returned. *)
Theorem C9_port_selection {host : Host} (preferred : option string) :
  preferred_unusable preferred = true ->
  (comports = [] -> snd (choose_port preferred) = Returns None)
  /\ (forall first others,
        comports = first :: others ->
        let count := len (first :: others) in
        (stdin = Answers "" ->
         snd (choose_port preferred) = Returns (Some (device first)))
        /\ (forall choice,
              stdin = Answers choice -> lower choice = "q" ->
              snd (choose_port preferred) = Returns None)
        /\ (forall choice idx,
              stdin = Answers choice -> lower choice <> "q" -> choice <> "" ->
              int choice = Some idx ->
              let k := Z.max 1 (Z.min count idx) in
              (1 <= k <= count)%Z
              /\ ((1 <= idx <= count)%Z -> k = idx)
              /\ exists p,
                   nth_error (first :: others) (Z.to_nat (k - 1)) = Some p
                   /\ snd (choose_port preferred) = Returns (Some (device p)))
        /\ (forall choice,
              stdin = Answers choice -> lower choice <> "q" -> choice <> "" ->
              int choice = None ->
              snd (choose_port preferred) = Returns (Some (device first)))
        /\ (stdin = NotATty ->
            snd (choose_port preferred) = Returns (Some (device first)))
        /\ (forall e,
              stdin = IsattyRaises e \/ stdin = InputRaises e ->
              snd (choose_port preferred) = Returns (Some (device first)))).
Proof.
  intros Hpref; rewrite (choose_port_enumerates preferred Hpref).
  split.
  - intros Hnone; unfold enumerate_ports; now rewrite Hnone.
  - intros first others Hports count.
    assert (Hcount : (1 <= count)%Z) by (subst count; unfold len; cbn [length]; lia).
    split; [| split; [| split; [| split; [| split]]]].
    + intros Hin.
      destruct (enumerate_answer first others "" 1 Hports Hin eq_refl eq_refl)
        as (p & Hp & ->).
      fold count in Hp; replace (Z.max 1 (Z.min count 1) - 1)%Z with 0%Z in Hp by lia.
      cbn in Hp; now injection Hp as <-.
    + intros choice Hin Hq; unfold enumerate_ports.
      now rewrite Hports, Hin, Hq.
    + intros choice idx Hin Hq Hblank Hint k.
      split; [subst k; lia | split; [subst k; lia |]].
      apply String.eqb_neq in Hq, Hblank.
      apply (enumerate_answer first others choice idx Hports Hin Hq).
      now rewrite Hblank, Hint.
    + intros choice Hin Hq Hblank Hint.
      apply String.eqb_neq in Hq, Hblank.
      destruct (enumerate_answer first others choice 1 Hports Hin Hq) as (p & Hp & ->).
      { now rewrite Hblank, Hint. }
      fold count in Hp; replace (Z.max 1 (Z.min count 1) - 1)%Z with 0%Z in Hp by lia.
      cbn in Hp; now injection Hp as <-.
    + intros Hin; unfold enumerate_ports; now rewrite Hports, Hin.
    + intros e [Hin | Hin]; unfold enumerate_ports; now rewrite Hports, Hin.
Qed.

Lemma C9_witness :
  exists p,
    nth_error [usb; bluetooth] (Z.to_nat (Z.max 1 (Z.min (len [usb; bluetooth]) 7) - 1))
    = Some p
    /\ snd (@choose_port (desk (Answers "7")) SERIAL_PORT) = Returns (Some (device p)).
Proof.
  destruct (@C9_port_selection (desk (Answers "7")) SERIAL_PORT eq_refl)
    as (_ & Hsome).
  destruct (Hsome usb [bluetooth] eq_refl) as (_ & _ & Hindex & _).
  apply (Hindex "7" 7%Z).
  - reflexivity.
  - discriminate.
  - discriminate.
  - reflexivity.
Defined.

(** *** Runs of the bridge, evaluated *)

Example burst_is_thinned :
  posted (snd (loop last_event_time
                 [stamped 1000; stamped 1500; stamped 2999; stamped 3000; stamped 3100]))
  = [stamped_payload 1000; stamped_payload 3000].
Proof. reflexivity. Qed.

Example clock_reset_is_silenced :
  posted (snd (loop (VInt 900000) [stamped 10; stamped 5000; stamped 60000])) = [].
Proof. reflexivity. Qed.

Example malformed_line_is_wrapped :
  posted (snd (loop last_event_time [Line "hello" None 1700000000000 (Response 200 "ok")]))
  = [[("raw", VStr "hello"); ("device_id", VStr "ELEGOO_PROTO_01");
      ("timestamp_ms", VInt 1700000000000)]].
Proof. reflexivity. Qed.

Example out_of_range_answers_are_clamped :
  snd (@choose_port (desk (Answers "0")) SERIAL_PORT) = Returns (Some (device usb))
  /\ snd (@choose_port (desk (Answers "7")) SERIAL_PORT)
     = Returns (Some (device bluetooth))
  /\ snd (@choose_port (desk (Answers "Q")) SERIAL_PORT) = Returns None
  /\ snd (@choose_port (desk (Answers "two")) SERIAL_PORT) = Returns (Some (device usb))
  /\ snd (@choose_port (desk NotATty) SERIAL_PORT) = Returns (Some (device usb)).
Proof. repeat split. Qed.

Example watermark_after_a_forwarded_line :
  loop (VInt 1000) [stamped 1500; stamped 4000; stamped 100]
  = (VInt 4000,
     [Printed "Serial: {...}"; Printed "  (Skipped - too soon after last event)";
      Printed "Serial: {...}"; Posted BACKEND_URL (stamped_payload 4000);
      Printed "POST 200 ok";
      Printed "Serial: {...}"; Printed "  (Skipped - too soon after last event)"]).
Proof. reflexivity. Qed.

Example float_stamps_round :
  posted (snd (loop last_event_time
                 [stamped_with (VFloat (nearest_float (10 ^ 20)));
                  stamped_with (VInt (10 ^ 20 + 2000))]))
  = [[("timestamp_ms", VFloat (nearest_float (10 ^ 20)));
      ("device_id", VStr "ELEGOO_PROTO_01")]].
Proof. vm_compute; reflexivity. Qed.

Example deep_nesting_is_reported :
  loop last_event_time [LoadsRaises "[[[[" RecursionError]
  = (last_event_time,
     [Printed "Serial: [[[["; PrintedExn "Serial read error:" RecursionError; Slept 1]).
Proof. reflexivity. Qed.

End BridgeProofs.


(** ** Further properties of the backend *)

Module BackendExtras.
Import Backend Samples BackendProofs.

Lemma accepted_gives_data (json : value) :
  accepted json = true <-> exists data, or_ json (VDict []) = VDict data.
Proof.
  unfold accepted, or_; split.
  - destruct json as [| b | z | f | s | l | d]; cbn [truthy negb orb].
    + intros _; eexists; reflexivity.
    + destruct b; [discriminate | intros _; eexists; reflexivity].
    + destruct (z =? 0)%Z; [intros _; eexists; reflexivity | discriminate].
    + destruct (PrimFloat.eqb f PrimFloat.zero);
        [intros _; eexists; reflexivity | discriminate].
    + destruct (String.eqb s ""); [intros _; eexists; reflexivity | discriminate].
    + destruct l; [intros _; eexists; reflexivity | discriminate].
    + destruct d; intros _; eexists; reflexivity.
  - intros [data Hdata].
    destruct json as [| b | z | f | s | l | d]; cbn [truthy negb orb] in *;
      try reflexivity.
    + destruct b; [discriminate | reflexivity].
    + destruct (z =? 0)%Z; [reflexivity | discriminate].
    + destruct (PrimFloat.eqb f PrimFloat.zero); [reflexivity | discriminate].
    + destruct (String.eqb s ""); [reflexivity | discriminate].
    + destruct l; [reflexivity | discriminate].
    + now rewrite orb_true_r.
Qed.

Lemma stores_gives_data (json : value) :
  stores json = true
  <-> exists data,
        or_ json (VDict []) = VDict data
        /\ storable (get data "device_id" (VStr "unknown")) = true
        /\ storable (event_type_of data) = true.
Proof.
  unfold stores; split.
  - destruct (or_ json (VDict [])) as [| | | | | | data]; try discriminate.
    intros H; apply andb_true_iff in H; exists data; tauto.
  - intros (data & -> & Hd & Ht); now rewrite Hd, Ht.
Qed.

(** Whatever branch a request takes whose event the store takes, it adds
    one row built from the request and answers with that row's id. *)
Lemma receive_event_appends {env : Environment}
    (json : value) (utcnow : Z) (w : world) (data : dict) :
  or_ json (VDict []) = VDict data ->
  storable (get data "device_id" (VStr "unknown")) = true ->
  storable (event_type_of data) = true ->
  exists (status : value) (more : dict) (ev : Event.t) (tr : list effect),
    receive_event json utcnow w
    = (inl (VDict (("status", status) :: ("event_id", VInt (Event.id ev)) :: more)),
       mkWorld (events w ++ [ev]) (ngos_table w) (trace w ++ tr)%list)
    /\ Event.id ev = next_id (map Event.id (events w))
    /\ Event.device_id ev = stored (get data "device_id" (VStr "unknown"))
    /\ Event.event_type ev = stored (event_type_of data)
    /\ Event.raw ev = str (VDict data)
    /\ Event.created_at ev = utcnow.
Proof.
  intros Hdata Hd Ht.
  destruct (eq_str (event_type_of data) "possible_encampment") eqn:Htype.
  - apply eq_str_true in Htype.
    assert (Hcase : ngos_table w = [] \/ ngos_table w <> [])
      by (destruct (ngos_table w); [left | right]; congruence).
    destruct Hcase as [Hnone | Hsome].
    + rewrite (receive_event_unmatched json utcnow w data Hdata Htype Hd Hnone).
      do 4 eexists; split; [reflexivity |]; rewrite Htype; repeat split.
    + destruct (receive_event_notifies json utcnow w data Hdata Htype Hd Hsome)
        as (tr & Hrun & _).
      rewrite Hrun.
      do 4 eexists; split; [reflexivity |]; rewrite Htype; repeat split.
  - apply eq_str_false in Htype.
    rewrite (receive_event_logged json utcnow w data Hdata Htype Hd Ht).
    do 4 eexists; split; [reflexivity |]; repeat split.
Qed.

(** *** What ingest accepts *)



(** *** What ingest stores *)



(** *** Which key names the event type *)

(** X3: a true value under [event] is the event type, whatever
    [event_type] holds.  So a request whose [event] is true and not
    "possible_encampment" is only logged, even when its [event_type] is
    "possible_encampment": provided the store takes that value and the
    device id, the event is stored with what the text column keeps of the
    value, and no responder is read or called. *)
Theorem event_key_shadows_event_type {env : Environment}
    (json : value) (utcnow : Z) (w : world) (data : dict) (v : value) :
  or_ json (VDict []) = VDict data ->
  lookup data "event" = Some v ->
  truthy v = true ->
  v <> VStr "possible_encampment" ->
  storable v = true ->
  storable (get data "device_id" (VStr "unknown")) = true ->
  event_type_of data = v
  /\ exists (ev : Event.t) (tr : list effect),
       receive_event json utcnow w
       = (inl (VDict [("status", VStr "ok");
                      ("event_id", VInt (Event.id ev));
                      ("message", VStr "Event logged")]),
          mkWorld (events w ++ [ev]) (ngos_table w) (trace w ++ tr)%list)
       /\ Event.event_type ev = stored v
       /\ Event.status ev = "new"
       /\ touches_responders tr = false.
Proof.
  intros Hdata Hv Htrue Hother Hstore Hd.
  assert (Htype : event_type_of data = v).
  { unfold event_type_of, or_ at 2, get; rewrite Hv, Htrue.
    unfold or_; now rewrite Htrue. }
  split; [exact Htype |].
  assert (Hne : event_type_of data <> VStr "possible_encampment") by congruence.
  assert (Ht : storable (event_type_of data) = true) by now rewrite Htype.
  rewrite (receive_event_logged json utcnow w data Hdata Hne Hd Ht).
  do 2 eexists; split; [reflexivity |]; repeat split.
  cbn [Event.event_type]; now rewrite Htype.
Qed.

Lemma event_key_shadows_event_type_witness :
  event_type_of shadowed_encampment = VStr "motion"
  /\ exists (ev : Event.t) (tr : list effect),
       @receive_event flaky (VDict shadowed_encampment) 100 two_shelters
       = (inl (VDict [("status", VStr "ok");
                      ("event_id", VInt (Event.id ev));
                      ("message", VStr "Event logged")]),
          mkWorld (events two_shelters ++ [ev]) (ngos_table two_shelters)
            (trace two_shelters ++ tr)%list)
       /\ Event.event_type ev = @stored flaky (VStr "motion")
       /\ Event.status ev = "new"
       /\ touches_responders tr = false.
Proof.
  apply (@event_key_shadows_event_type flaky (VDict shadowed_encampment) 100
           two_shelters shadowed_encampment (VStr "motion")).
  - reflexivity.
  - reflexivity.
  - reflexivity.
  - discriminate.
  - reflexivity.
  - reflexivity.
Defined.

(** *** The matched_ngos column *)

Lemma str_int_inj (a b : Z) : str_int a = str_int b -> a = b.
Proof.
  unfold str_int; intros H.
  assert (Hparse : forall z,
             NilZero.int_of_string (NilZero.string_of_int (Z.to_int z))
             = Some (Z.to_int z)).
  { intros z; apply NilZero.isi; destruct z; cbn [Z.to_int]; try discriminate;
      intros [= Hnil]; now apply DecimalPos.Unsigned.to_uint_nonnil in Hnil. }
  apply DecimalZ.to_int_inj.
  pose proof (Hparse a) as Ha; rewrite H, Hparse in Ha; congruence.
Qed.

Lemma map_str_int_inj (l1 l2 : list Z) :
  map str_int l1 = map str_int l2 -> l1 = l2.
Proof.
  revert l2; induction l1 as [| a l1 IH]; intros [| b l2]; cbn [map];
    try discriminate; [reflexivity |].
  intros [= Hab Hrest]; f_equal; [now apply str_int_inj | now apply IH].
Qed.

Lemma joined_ids_split (l : list NGO.t) :
  l <> [] -> split "," (joined_ids l) = map str_int (map NGO.id l).
Proof.
  intros Hl; unfold joined_ids; rewrite map_map; apply split_join.
  - destruct l; [congruence | discriminate].
  - apply Forall_map, Forall_forall; intros n _; apply str_int_free_of_comma.
Qed.

(** X4: the string stored in [matched_ngos] determines the matched ids
    and their order: two lists of responders with the same joined string
    have the same ids, position by position. *)
Theorem joined_ids_determines_ids (l1 l2 : list NGO.t) :
  joined_ids l1 = joined_ids l2 -> map NGO.id l1 = map NGO.id l2.
Proof.
  intros H.
  destruct l1 as [| a l1], l2 as [| b l2]; [reflexivity | | |].
  - exfalso; symmetry in H; revert H; unfold joined_ids; cbn [map].
    apply join_not_empty, str_int_not_empty.
  - exfalso; revert H; unfold joined_ids; cbn [map].
    apply join_not_empty, str_int_not_empty.
  - apply map_str_int_inj.
    rewrite <- !joined_ids_split by discriminate; now rewrite H.
Qed.

Lemma joined_ids_determines_ids_witness :
  map NGO.id [shelter_a; shelter_b] = map NGO.id [shelter 1; shelter 2].
Proof.
  apply (joined_ids_determines_ids [shelter_a; shelter_b] [shelter 1; shelter 2]).
  reflexivity.
Defined.

(** *** The responder endpoint *)

Lemma ngos_post_stored {env : Environment} (j : dict) (name : value) (w : world) :
  lookup j "name" = Some name ->
  storable_responder j name = true ->
  let n := NGO.mk (next_id (map NGO.id (ngos_table w))) (stored name)
             (stored (get j "phone" VNone)) (stored (get j "email" VNone))
             VNone VNone (stored (get j "services" (VStr ""))) in
  ngos "POST" (VDict j) w
  = (inl (VDict [("id", VInt (NGO.id n)); ("name", stored name)]),
     mkWorld (events w) (ngos_table w ++ [n])
       (trace w ++ [Printed ("✓ Added NGO: " ++ str (stored name) ++ " (ID: "
                             ++ str_int (NGO.id n) ++ ")")])%list).
Proof.
  intros Hname Hstore n.
  unfold ngos; cbn [String.eqb Ascii.eqb Bool.eqb get_json].
  unfold bind at 1, ret at 1; rewrite Hname.
  erewrite (bind_returns (add_ngo _ _ _ _)) by (apply add_ngo_stored; exact Hstore).
  erewrite (bind_returns (print _)) by reflexivity.
  reflexivity.
Qed.


(** *** The cap of ten *)



(** *** Registering and listing *)

(** X6: a responder registered by POST with attributes the store takes is
    listed by the next GET, last, with the id the POST answered and with
    what the text columns keep of the name, phone and email of the request
    (null for a key the request lacks); the POST answers with the name as
    the column keeps it, so a number comes back as its decimal text; the
    entries listed before are unchanged, and no event row is touched. *)
Theorem registered_responder_is_listed {env : Environment}
    (j : dict) (name ignored : value) (w : world) :
  lookup j "name" = Some name ->
  storable_responder j name = true ->
  let w' := snd (ngos "POST" (VDict j) w) in
  exists (id : Z) (before : list value),
    fst (ngos "POST" (VDict j) w)
    = inl (VDict [("id", VInt id); ("name", stored name)])
    /\ fst (ngos "GET" ignored w) = inl (VList before)
    /\ fst (ngos "GET" ignored w')
       = inl (VList (before ++ [VDict [("id", VInt id);
                                       ("name", stored name);
                                       ("phone", stored (get j "phone" VNone));
                                       ("email", stored (get j "email" VNone))]]))
    /\ events w' = events w
    /\ (forall z, name = VInt z -> stored name = VStr (str_int z)).
Proof.
  intros Hname Hstore w'; subst w'.
  rewrite (ngos_post_stored j name w Hname Hstore); cbn [fst snd].
  unfold ngos; cbn [String.eqb Ascii.eqb Bool.eqb].
  unfold bind, NGO_query_all, bind, emit, ret;
    cbn [fst snd events ngos_table trace NGO.id NGO.name NGO.phone NGO.email].
  do 2 eexists; split; [reflexivity |]; split; [reflexivity |].
  split; [now rewrite map_app | split; [reflexivity |]].
  intros z ->; unfold stored; cbn [String_column].
  unfold storable_responder in Hstore.
  destruct (storable (VInt z)); [reflexivity | discriminate].
Qed.

Lemma registered_responder_is_listed_witness :
  let j := [("name", VInt 5); ("phone", VStr "+15550002")] in
  let w' := snd (@ngos offline "POST" (VDict j) one_shelter) in
  exists (id : Z) (before : list value),
    fst (@ngos offline "POST" (VDict j) one_shelter)
    = inl (VDict [("id", VInt id); ("name", @stored offline (VInt 5))])
    /\ fst (@ngos offline "GET" VNone one_shelter) = inl (VList before)
    /\ fst (@ngos offline "GET" VNone w')
       = inl (VList
                (before
                 ++ [VDict [("id", VInt id);
                            ("name", @stored offline (VInt 5));
                            ("phone", @stored offline (get j "phone" VNone));
                            ("email", @stored offline (get j "email" VNone))]]))
    /\ events w' = events one_shelter
    /\ (forall z, VInt 5 = VInt z -> @stored offline (VInt 5) = VStr (str_int z)).
Proof.
  apply (@registered_responder_is_listed offline
           [("name", VInt 5); ("phone", VStr "+15550002")]
           (VInt 5) VNone one_shelter).
  - reflexivity.
  - reflexivity.
Defined.



(** *** Bulk clear *)

Lemma receive_event_counts {env : Environment} (json : value) (utcnow : Z) (w : world) :
  len (events (snd (receive_event json utcnow w)))
  = (len (events w) + if stores json then 1 else 0)%Z
  /\ ngos_table (snd (receive_event json utcnow w)) = ngos_table w.
Proof.
  destruct (stores json) eqn:Hstores.
  - apply stores_gives_data in Hstores as (data & Hdata & Hd & Ht).
    destruct (receive_event_appends json utcnow w data Hdata Hd Ht)
      as (status & more & ev & tr & -> & _).
    cbn [snd events ngos_table]; unfold len; rewrite length_app; cbn [length].
    split; [lia | reflexivity].
  - destruct (accepted json) eqn:Hacc.
    + apply accepted_gives_data in Hacc as [data Hdata].
      unfold stores in Hstores; rewrite Hdata in Hstores.
      destruct (receive_event_refused json utcnow w data Hdata Hstores)
        as (e & -> & _).
      cbn [snd events ngos_table]; split; [lia | reflexivity].
    + rewrite receive_event_raises; [cbn [snd]; split; [lia | reflexivity] |].
      intros data Hdata.
      assert (accepted json = true) by (apply accepted_gives_data; eauto).
      congruence.
Qed.

Lemma serve_ingests_counts {env : Environment} (bodies : list (value * Z)) :
  forall w : world,
    len (events (serve (map (fun b : value * Z => PostEvent (fst b) (snd b)) bodies) w))
    = (len (events w) + len (filter (fun b => stores (fst b)) bodies))%Z
    /\ ngos_table (serve (map (fun b : value * Z => PostEvent (fst b) (snd b)) bodies) w)
       = ngos_table w.
Proof.
  induction bodies as [| [json utcnow] bodies IH]; intros w.
  - cbn [map serve filter]; unfold len; cbn [length]; split; [lia | reflexivity].
  - cbn [map serve handle fst snd filter].
    destruct (IH (snd (receive_event json utcnow w))) as [Hlen Htable].
    destruct (receive_event_counts json utcnow w) as [Hone Hsame].
    rewrite Hlen, Htable, Hone, Hsame; split; [| reflexivity].
    destruct (stores json); unfold len; cbn [length]; lia.
Qed.

(** X8: after any run of ingest requests with JSON bodies, a bulk clear
    reports as deleted the number of events stored before the run plus one
    for each request whose event the store took (a body that is false or a
    dictionary, with a device id and an event type that can be bound to
    their columns), leaves no event and keeps the responders; a second
    clear reports 0. *)
Theorem clear_reports_every_stored_event {env : Environment}
    (bodies : list (value * Z)) (w : world) :
  let w1 := serve (map (fun b : value * Z => PostEvent (fst b) (snd b)) bodies) w in
  let deleted := (len (events w) + len (filter (fun b => stores (fst b)) bodies))%Z in
  exists tr,
    clear_events w1
    = (inl (VDict [("status", VStr "ok");
                   ("deleted", VInt deleted);
                   ("message", VStr ("Cleared " ++ str_int deleted ++ " events"))]),
       mkWorld [] (ngos_table w) tr)
    /\ fst (clear_events (snd (clear_events w1)))
       = inl (VDict [("status", VStr "ok");
                     ("deleted", VInt 0);
                     ("message", VStr "Cleared 0 events")]).
Proof.
  intros w1 deleted.
  destruct (serve_ingests_counts bodies w) as [Hlen Htable].
  fold w1 in Hlen, Htable; fold deleted in Hlen.
  unfold clear_events, bind, Event_query_delete, print, emit, ret;
    cbn [fst snd events ngos_table trace].
  rewrite Hlen, Htable.
  eexists; split; reflexivity.
Qed.

Example clear_counts_only_what_was_stored :
  let bodies := [(VDict motion, 1%Z); (VDict listed_event, 2%Z); (VNone, 3%Z);
                 (VList [VInt 1], 4%Z); (VDict encampment, 5%Z)] in
  fst (clear_events
         (@serve flaky (map (fun b : value * Z => PostEvent (fst b) (snd b)) bodies) two_shelters))
  = inl (VDict [("status", VStr "ok"); ("deleted", VInt 3);
                ("message", VStr "Cleared 3 events")]).
Proof. vm_compute; reflexivity. Qed.

(** *** Statistics *)

Lemma keeps_matched_iff_add (w : world) (ev : Event.t) (t : list NGO.t)
    (tr : list effect) :
  forallb matched_iff_notified (events w) = true ->
  matched_iff_notified ev = true ->
  forallb matched_iff_notified (events (mkWorld (events w ++ [ev]) t tr)) = true.
Proof.
  cbn [events]; intros Hw Hev.
  rewrite forallb_app, Hw; cbn [forallb]; now rewrite Hev.
Qed.

Lemma handle_keeps_matched_iff {env : Environment} (r : request) (w : world) :
  forallb matched_iff_notified (events w) = true ->
  forallb matched_iff_notified (events (snd (handle r w))) = true.
Proof.
  intros Hw; destruct r as [sent utcnow | method sent |]; cbn [handle].
  - destruct sent as [| | json]; [exact Hw | exact Hw |].
    destruct (accepted json) eqn:Hacc.
    + apply accepted_gives_data in Hacc as [data Hdata].
      destruct (storable (get data "device_id" (VStr "unknown"))
                && storable (event_type_of data)) eqn:Hstore.
      * apply andb_true_iff in Hstore as [Hd Ht].
        destruct (eq_str (event_type_of data) "possible_encampment") eqn:Htype.
        -- apply eq_str_true in Htype.
           assert (Hcase : ngos_table w = [] \/ ngos_table w <> [])
             by (destruct (ngos_table w); [left | right]; congruence).
           destruct Hcase as [Hnone | Hsome].
           ++ rewrite (receive_event_unmatched json utcnow w data Hdata Htype Hd Hnone).
              now apply keeps_matched_iff_add.
           ++ destruct (receive_event_notifies json utcnow w data Hdata Htype Hd Hsome)
                as (tr & -> & _).
              now apply keeps_matched_iff_add.
        -- apply eq_str_false in Htype.
           rewrite (receive_event_logged json utcnow w data Hdata Htype Hd Ht).
           now apply keeps_matched_iff_add.
      * destruct (receive_event_refused json utcnow w data Hdata Hstore)
          as (e & -> & _).
        exact Hw.
    + rewrite receive_event_raises; [exact Hw |].
      intros data Hdata.
      assert (accepted json = true) by (apply accepted_gives_data; eauto).
      congruence.
  - now rewrite ngos_keeps_events.
  - reflexivity.
Qed.

Lemma serve_keeps_matched_iff {env : Environment} (rs : list request) :
  forall w : world,
    forallb matched_iff_notified (events w) = true ->
    forallb matched_iff_notified (events (serve rs w)) = true.
Proof.
  induction rs as [| r rs IH]; intros w Hw; cbn [serve]; [exact Hw |].
  apply IH, handle_keeps_matched_iff, Hw.
Qed.

(** X9: in every state the handlers reach from an empty database,
    [stats] changes nothing and reports the number of event rows, the
    number of responders, and as [active_alerts] exactly the number of
    event rows that record matched responders, which is at most the number
    of event rows. *)
Theorem stats_counts_matched_events {env : Environment} (rs : list request) :
  let w := serve rs empty_world in
  let with_match :=
    filter (fun e => match Event.matched_ngos e with Some _ => true | None => false end)
           (events w) in
  stats w
  = (inl (VDict [("total_events", VInt (len (events w)));
                 ("total_ngos", VInt (len (ngos_table w)));
                 ("active_alerts", VInt (len with_match))]),
     w)
  /\ (0 <= len with_match <= len (events w))%Z.
Proof.
  intros w with_match.
  assert (Hinv : forallb matched_iff_notified (events w) = true)
    by (apply serve_keeps_matched_iff; reflexivity).
  assert (Hsame : filter (fun e => String.eqb (Event.status e) "notified") (events w)
                  = with_match).
  { subst with_match; apply filter_ext_in; intros e He.
    rewrite forallb_forall in Hinv; specialize (Hinv e He).
    unfold matched_iff_notified in Hinv; now apply eqb_prop in Hinv. }
  split.
  - unfold stats; now rewrite Hsame.
  - subst with_match; unfold len.
    pose proof (filter_length_le
                  (fun e => match Event.matched_ngos e with
                            | Some _ => true
                            | None => false
                            end) (events w)); lia.
Qed.

(** *** What is sent is what is reported *)

Lemma provider_calls_app (a b : list effect) :
  provider_calls (a ++ b) = (provider_calls a ++ provider_calls b)%list.
Proof. unfold provider_calls; apply flat_map_app. Qed.

Lemma notify_loop_calls {env : Environment} (responders : list NGO.t) (event : dict) :
  forall (msgs : list value) (w : world),
  exists tr,
    notify_loop responders event msgs w
    = (inl (msgs ++ map (fun n => msg_entry n (alert_text event)) responders)%list,
       mkWorld (events w) (ngos_table w) (trace w ++ tr)%list)
    /\ provider_calls tr
       = if truthy_env TWILIO_SID
         then map (fun n => (alert_text event, TWILIO_FROM, NGO.phone n))
                (filter (fun n => truthy (NGO.phone n)) responders)
         else [].
Proof.
  induction responders as [| ngo rest IH]; intros msgs w.
  - exists []; cbn [notify_loop map filter]; unfold ret; rewrite !app_nil_r.
    destruct w; split; [reflexivity | now destruct (truthy_env TWILIO_SID)].
  - cbn [notify_loop]; unfold bind at 1, print, emit; cbn [fst snd].
    destruct (truthy_env TWILIO_SID) eqn:Hsid; cbn [andb filter];
      destruct (truthy (NGO.phone ngo)) eqn:Hphone.
    + unfold bind at 1, send_sms, bind, print, emit.
      cbn [fst snd events ngos_table trace].
      match goal with
      | |- context [provider ?k] => destruct (provider k) as [e |]
      end; cbn [fst snd events ngos_table trace];
        match goal with
        | |- context [notify_loop rest event ?m ?w'] =>
            destruct (IH m w') as (tr & -> & Hcalls)
        end; cbn [events ngos_table trace];
        eexists; (split; [rewrite <- !app_assoc; cbn [app]; reflexivity |]);
        cbn [provider_calls flat_map app map]; fold (provider_calls tr);
        now rewrite Hcalls.
    + unfold bind at 1, ret; cbn [fst snd].
      match goal with
      | |- context [notify_loop rest event ?m ?w'] =>
          destruct (IH m w') as (tr & -> & Hcalls)
      end; cbn [events ngos_table trace].
      eexists; (split; [rewrite <- !app_assoc; cbn [app]; reflexivity |]).
      cbn [provider_calls flat_map app]; fold (provider_calls tr); exact Hcalls.
    + unfold bind at 1, ret; cbn [fst snd].
      match goal with
      | |- context [notify_loop rest event ?m ?w'] =>
          destruct (IH m w') as (tr & -> & Hcalls)
      end; cbn [events ngos_table trace].
      eexists; (split; [rewrite <- !app_assoc; cbn [app]; reflexivity |]).
      cbn [provider_calls flat_map app]; fold (provider_calls tr); exact Hcalls.
    + unfold bind at 1, ret; cbn [fst snd].
      match goal with
      | |- context [notify_loop rest event ?m ?w'] =>
          destruct (IH m w') as (tr & -> & Hcalls)
      end; cbn [events ngos_table trace].
      eexists; (split; [rewrite <- !app_assoc; cbn [app]; reflexivity |]).
      cbn [provider_calls flat_map app]; fold (provider_calls tr); exact Hcalls.
Qed.

(** X10: the provider calls [notify_ngos] makes are, in order, one per
    responder with a phone when a sender id is configured, each with the
    text that the responder's entry of the result reports under [message],
    the configured sender, and the responder's phone as recipient; without
    a sender id no call is made at all. *)
Theorem provider_gets_the_reported_text {env : Environment}
    (responders : list NGO.t) (event : dict) (w : world) :
  exists tr,
    notify_ngos responders event w
    = (inl (map (fun n => VDict [("ngo", NGO.name n);
                                 ("phone", NGO.phone n);
                                 ("message", VStr (alert_text event))]) responders),
       mkWorld (events w) (ngos_table w) (trace w ++ tr)%list)
    /\ provider_calls tr
       = if truthy_env TWILIO_SID
         then map (fun n => (alert_text event, TWILIO_FROM, NGO.phone n))
                (filter (fun n => truthy (NGO.phone n)) responders)
         else [].
Proof.
  destruct (notify_loop_calls responders event [] w) as (tr & Hrun & Hcalls).
  exists tr; split; [exact Hrun | exact Hcalls].
Qed.

End BackendExtras.

(** ** Further properties of the serial bridge *)

Module BridgeExtras.
Import Bridge Samples BridgeProofs.

(** *** Port selection *)

Lemma lower_ascii_q (c : ascii) :
  lower_ascii c = "q"%char <-> c = "q"%char \/ c = "Q"%char.
Proof.
  destruct c as [[] [] [] [] [] [] [] []]; vm_compute; split;
    intros H; try discriminate H; try (destruct H as [H | H]; discriminate H);
    auto.
Qed.

Lemma lower_q (s : string) : lower s = "q" <-> s = "q" \/ s = "Q".
Proof.
  destruct s as [| c s]; cbn [lower].
  - split; [discriminate | intros [H | H]; discriminate H].
  - destruct s as [| c' s]; cbn [lower].
    + split.
      * intros [= H]; apply lower_ascii_q in H as [-> | ->]; auto.
      * intros [[= ->] | [= ->]]; reflexivity.
    + split; [discriminate | intros [H | H]; discriminate H].
Qed.

(** X11: whatever the ports, the terminal and the operator do, a device
    that [choose_port] returns is the preferred port or the device of one
    of the enumerated ports. *)
Theorem chosen_port_exists {host : Host} (preferred : option string) (dev : string) :
  snd (choose_port preferred) = Returns (Some dev) ->
  preferred = Some dev \/ exists p, In p comports /\ device p = dev.
Proof.
  assert (Henum : snd enumerate_ports = Returns (Some dev) ->
                  exists p, In p comports /\ device p = dev).
  { unfold enumerate_ports.
    destruct comports as [| first others] eqn:Hports; [discriminate |].
    assert (Hfirst : forall d, Returns (Some (device first)) = Returns (Some d) ->
                               exists p, In p (first :: others) /\ device p = d).
    { intros d [= <-]; exists first; split; [now left | reflexivity]. }
    destruct stdin as [| choice | e | e |]; cbn [snd]; try apply Hfirst;
      [| discriminate].
    destruct (String.eqb (lower choice) "q"); [discriminate |].
    destruct (if String.eqb choice "" then (1%Z, [])
              else match int choice with
                   | Some idx => (idx, [])
                   | None => (1%Z, [Printed "Invalid selection, using first port."])
                   end) as [idx said].
    destruct (nth_error _ _) as [[d desc] |] eqn:Hnth; cbn [snd];
      [| apply Hfirst].
    intros [= <-]; apply nth_error_In, in_map_iff in Hnth as (p & [= <- _] & Hin).
    exists p; split; [exact Hin | reflexivity]. }
  unfold choose_port.
  destruct preferred as [p |]; [| intros H; right; now apply Henum].
  destruct (String.eqb p ""); cbn [negb]; [intros H; right; now apply Henum |].
  destruct (Serial_probe p).
  - destruct enumerate_ports as [done r]; cbn [snd] in *.
    intros H; right; now apply Henum.
  - intros [= ->]; now left.
Qed.

Lemma chosen_port_exists_witness :
  SERIAL_PORT = Some (device bluetooth)
  \/ exists p, In p (@comports (desk (Answers "2"))) /\ device p = device bluetooth.
Proof.
  apply (@chosen_port_exists (desk (Answers "2")) SERIAL_PORT (device bluetooth)).
  reflexivity.
Defined.

(** X12: when the preferred port is of no use, [choose_port] returns
    nothing exactly when no port is enumerated or the answer at the prompt
    is "q" or "Q" (after stripping); any other answer, "quit" included,
    selects a port. *)
Theorem nothing_chosen_exactly_on_quit {host : Host} (preferred : option string) :
  preferred_unusable preferred = true ->
  snd (choose_port preferred) = Returns None
  <-> comports = [] \/ stdin = Answers "q" \/ stdin = Answers "Q".
Proof.
  intros Hpref; rewrite (choose_port_enumerates preferred Hpref).
  unfold enumerate_ports.
  destruct comports as [| first others] eqn:Hports.
  - split; [now left | reflexivity].
  - destruct stdin as [| choice | e | e |]; cbn [snd];
      try (split; [discriminate | intros [H | [H | H]]; discriminate H]).
    destruct (String.eqb (lower choice) "q") eqn:Hq.
    + apply String.eqb_eq, lower_q in Hq.
      split; [intros _; right; destruct Hq as [-> | ->]; auto | reflexivity].
    + assert (Hno : ~ (choice = "q" \/ choice = "Q")).
      { intros H; apply lower_q, String.eqb_eq in H; congruence. }
      destruct (if String.eqb choice "" then (1%Z, [])
                else match int choice with
                     | Some idx => (idx, [])
                     | None => (1%Z, [Printed "Invalid selection, using first port."])
                     end) as [idx said].
      destruct (nth_error _ _) as [[d desc] |]; cbn [snd];
        (split; [discriminate
                | intros [H | [[= H] | [= H]]]; [discriminate H | |];
                  exfalso; apply Hno; auto]).
Qed.

Lemma nothing_chosen_exactly_on_quit_witness :
  snd (@choose_port (desk (Answers "Q")) SERIAL_PORT) = Returns None
  <-> @comports (desk (Answers "Q")) = []
      \/ @stdin (desk (Answers "Q")) = Answers "q"
      \/ @stdin (desk (Answers "Q")) = Answers "Q".
Proof.
  apply (@nothing_chosen_exactly_on_quit (desk (Answers "Q")) SERIAL_PORT).
  reflexivity.
Defined.

(** *** Filling in the defaults *)

Lemma lookup_app (d d' : dict) (k : string) :
  lookup (d ++ d')%list k
  = match lookup d k with
    | Some v => Some v
    | None => lookup d' k
    end.
Proof.
  induction d as [| [k' v'] d IH]; cbn [app lookup]; [reflexivity |].
  destruct (String.eqb k' k); [reflexivity | exact IH].
Qed.

Lemma lookup_setdefault (d : dict) (k k' : string) (v : value) :
  lookup (setdefault d k v) k'
  = match lookup d k' with
    | Some x => Some x
    | None => if String.eqb k k' then Some v else None
    end.
Proof.
  unfold setdefault.
  destruct (lookup d k) as [x |] eqn:Hk.
  - destruct (lookup d k') eqn:Hk'; [reflexivity |].
    destruct (String.eqb_spec k k') as [-> | _]; [congruence | reflexivity].
  - rewrite lookup_app; cbn [lookup].
    destruct (lookup d k'); reflexivity.
Qed.

Lemma payload_of_keeps (line : string) (loads : option value) (now_ms : Z) :
  (forall e, payload_of line loads now_ms = inr e ->
             e = AttributeError
             /\ exists v, loads = Some v /\ forall d, v <> VDict d)
  /\ (forall payload,
        payload_of line loads now_ms = inl payload ->
        (forall d k v, loads = Some (VDict d) -> lookup d k = Some v ->
                       lookup payload k = Some v)
        /\ (loads = None -> lookup payload "raw" = Some (VStr line))
        /\ (exists v, lookup payload "device_id" = Some v)
        /\ (exists v, lookup payload "timestamp_ms" = Some v)
        /\ (forall d, loads = Some (VDict d) -> lookup d "device_id" = None ->
                      lookup payload "device_id" = Some (VStr "ELEGOO_PROTO_01"))
        /\ (forall d, loads = Some (VDict d) -> lookup d "timestamp_ms" = None ->
                      lookup payload "timestamp_ms" = Some (VInt now_ms))).
Proof.
  unfold payload_of; split.
  - intros e He; destruct loads as [v |]; [| discriminate].
    destruct v; try (injection He as <-; split; [reflexivity |];
                     eexists; split; [reflexivity | discriminate]).
    discriminate.
  - intros payload Hp.
    assert (Hd : exists d, payload
                           = setdefault (setdefault d "device_id" (VStr "ELEGOO_PROTO_01"))
                               "timestamp_ms" (VInt now_ms)
                           /\ (forall d', loads = Some (VDict d') -> d' = d)
                           /\ (loads = None -> d = [("raw", VStr line)])).
    { destruct loads as [v |].
      - destruct v; try discriminate; injection Hp as <-.
        eexists; split; [reflexivity |]; split; [now intros d' [= ->] | discriminate].
      - injection Hp as <-.
        eexists; split; [reflexivity |]; split; [discriminate | reflexivity]. }
    destruct Hd as (d & -> & Hsome & Hnone).
    repeat split.
    + intros d' k v Hl Hk; apply Hsome in Hl as ->.
      now rewrite !lookup_setdefault, Hk.
    + intros Hl; rewrite (Hnone Hl); reflexivity.
    + rewrite !lookup_setdefault; cbn [String.eqb Ascii.eqb Bool.eqb].
      destruct (lookup d "device_id"); eexists; reflexivity.
    + rewrite !lookup_setdefault; cbn [String.eqb Ascii.eqb Bool.eqb].
      destruct (lookup d "timestamp_ms"); eexists; reflexivity.
    + intros d' Hl Hk; apply Hsome in Hl as ->.
      rewrite !lookup_setdefault, Hk; reflexivity.
    + intros d' Hl Hk; apply Hsome in Hl as ->.
      rewrite !lookup_setdefault, Hk; reflexivity.
Qed.



(** *** What the loop forwards *)

Lemma iteration_posts (last : value) (r : reading) (payload : dict) :
  In payload (posted (snd (iteration last r))) ->
  exists line loads now_ms backend,
    r = Line line loads now_ms backend
    /\ line <> ""
    /\ payload_of line loads now_ms = inl payload.
Proof.
  destruct r as [line loads now_ms backend | line e | e |];
    [| cbn [iteration]; destruct (String.eqb line ""); intros [] | intros [] ..].
  unfold iteration.
  destruct (String.eqb_spec line "") as [-> | Hline]; [intros [] |].
  destruct (payload_of line loads now_ms) as [p | e] eqn:Hp.
  - destruct (too_soon last _) as [[|] | e]; cbn [snd];
      rewrite posted_app, ?posted_send, ?posted_on_exception;
      cbn [posted flat_map app In]; try tauto.
    intros [<- | []]; exists line, loads, now_ms, backend; auto.
  - cbn [snd]; rewrite posted_app, posted_on_exception; intros [].
Qed.

(** X14: the loop invents nothing: every payload it forwards, from any
    watermark and over any readings, is the payload of a non-empty line it
    read, and so carries both [device_id] and [timestamp_ms]. *)
Theorem forwarded_payloads_come_from_lines
    (last : value) (rs : list reading) (payload : dict) :
  In payload (posted (snd (loop last rs))) ->
  (exists line loads now_ms backend,
     In (Line line loads now_ms backend) rs
     /\ line <> ""
     /\ payload_of line loads now_ms = inl payload)
  /\ (exists v, lookup payload "device_id" = Some v)
  /\ (exists v, lookup payload "timestamp_ms" = Some v).
Proof.
  intros Hin.
  assert (Hline : exists line loads now_ms backend,
             In (Line line loads now_ms backend) rs
             /\ line <> "" /\ payload_of line loads now_ms = inl payload).
  { revert last Hin; induction rs as [| r rs IH]; intros last Hin; [destruct Hin |].
    assert (Hstop : r = Interrupt \/ r <> Interrupt)
      by (destruct r; [right | right | right | left]; congruence).
    destruct Hstop as [-> | Hgo]; [destruct Hin |].
    rewrite loop_cons in Hin by exact Hgo; cbn [snd] in Hin.
    rewrite posted_app in Hin; apply in_app_or in Hin as [Hin | Hin].
    - apply iteration_posts in Hin as (line & loads & now_ms & backend & -> & H1 & H2).
      exists line, loads, now_ms, backend; split; [now left | auto].
    - destruct (IH _ Hin) as (line & loads & now_ms & backend & H0 & H1 & H2).
      exists line, loads, now_ms, backend; split; [now right | auto]. }
  split; [exact Hline |].
  destruct Hline as (line & loads & now_ms & backend & _ & _ & Hp).
  destruct (payload_of_keeps line loads now_ms) as (_ & Hkeeps).
  destruct (Hkeeps payload Hp) as (_ & _ & Hid & Hstamp & _); auto.
Qed.

Lemma forwarded_payloads_come_from_lines_witness :
  (exists line loads now_ms backend,
     In (Line line loads now_ms backend) [stamped 10; stamped 5000]
     /\ line <> ""
     /\ payload_of line loads now_ms = inl (stamped_payload 5000))
  /\ (exists v, lookup (stamped_payload 5000) "device_id" = Some v)
  /\ (exists v, lookup (stamped_payload 5000) "timestamp_ms" = Some v).
Proof.
  apply (forwarded_payloads_come_from_lines last_event_time [stamped 10; stamped 5000]
           (stamped_payload 5000)).
  right; left; reflexivity.
Defined.

(** *** A watermark that is no number *)

Lemma too_soon_unset (last current : value) (w : Z) :
  as_int last = Some w -> (w <= 0)%Z -> too_soon last current = inl false.
Proof.
  intros Hlast Hunset; unfold too_soon, gt_literal.
  rewrite (as_int_number _ _ Hlast).
  assert (Hgt : (w >? 0)%Z = false) by (rewrite Z.gtb_ltb; apply Z.ltb_ge; lia).
  now rewrite Hgt.
Qed.

Lemma too_soon_stuck (last current : value) :
  as_number last = None -> too_soon last current = inr TypeError.
Proof. intros Hlast; unfold too_soon, gt_literal; now rewrite Hlast. Qed.

Lemma iteration_stuck (last : value) (r : reading) :
  as_number last = None ->
  fst (iteration last r) = last /\ posted (snd (iteration last r)) = [].
Proof.
  intros Hlast.
  destruct r as [line loads now_ms backend | line e | e |];
    [| cbn [iteration]; destruct (String.eqb line ""); split; reflexivity
     | split; reflexivity ..].
  destruct (String.eqb_spec line "") as [-> | Hline]; [split; reflexivity |].
  destruct (payload_of line loads now_ms) as [payload | e] eqn:Hp.
  - pose proof (iteration_line last line loads now_ms backend payload Hline Hp) as H.
    cbv zeta in H; now rewrite (too_soon_stuck last _ Hlast) in H.
  - unfold iteration; apply String.eqb_neq in Hline; rewrite Hline, Hp.
    split; reflexivity.
Qed.

Lemma loop_stuck (last : value) (rs : list reading) :
  as_number last = None ->
  fst (loop last rs) = last /\ posted (snd (loop last rs)) = [].
Proof.
  intros Hlast; induction rs as [| r rs IH]; [split; reflexivity |].
  assert (Hstop : r = Interrupt \/ r <> Interrupt)
    by (destruct r; [right | right | right | left]; congruence).
  destruct Hstop as [-> | Hgo]; [split; reflexivity |].
  rewrite loop_cons by exact Hgo; cbn [fst snd]; rewrite posted_app.
  destruct (iteration_stuck last r Hlast) as [-> ->]; exact IH.
Qed.

(** X15: while the watermark is an integer that is not positive (unset), a
    line whose [timestamp_ms] is no number (a string, null, a list, an
    object; a float is a number) is forwarded and its stamp becomes the
    watermark; from then on the guard raises on every line, so whatever is
    read afterwards, nothing more is forwarded and the watermark stays. *)
Theorem text_stamp_silences_the_bridge
    (last : value) (w : Z) (line : string) (loads : option value) (now_ms : Z)
    (backend : reply) (payload : dict) (rs : list reading) :
  as_int last = Some w ->
  (w <= 0)%Z ->
  line <> "" ->
  payload_of line loads now_ms = inl payload ->
  as_number (get payload "timestamp_ms" VNone) = None ->
  fst (loop last (Line line loads now_ms backend :: rs))
  = get payload "timestamp_ms" VNone
  /\ posted (snd (loop last (Line line loads now_ms backend :: rs))) = [payload]
  /\ forall current, too_soon (get payload "timestamp_ms" VNone) current = inr TypeError.
Proof.
  intros Hlast Hunset Hline Hp Hstamp.
  pose proof (iteration_line last line loads now_ms backend payload Hline Hp) as H.
  cbv zeta in H; rewrite (too_soon_unset last _ w Hlast Hunset) in H.
  destruct H as [Hw Hd].
  rewrite loop_cons by discriminate; cbn [fst snd]; rewrite posted_app, Hw, Hd.
  destruct (loop_stuck (get payload "timestamp_ms" VNone) rs Hstamp) as [-> ->].
  split; [reflexivity | split; [reflexivity |]].
  intros current; now apply too_soon_stuck.
Qed.

Lemma text_stamp_silences_the_bridge_witness :
  fst (loop last_event_time [text_stamped; stamped 5000; stamped 90000])
  = get [("timestamp_ms", VStr "noon"); ("device_id", VStr "ELEGOO_PROTO_01")]
      "timestamp_ms" VNone
  /\ posted (snd (loop last_event_time [text_stamped; stamped 5000; stamped 90000]))
     = [[("timestamp_ms", VStr "noon"); ("device_id", VStr "ELEGOO_PROTO_01")]]
  /\ forall current,
       too_soon
         (get [("timestamp_ms", VStr "noon"); ("device_id", VStr "ELEGOO_PROTO_01")]
            "timestamp_ms" VNone) current
       = inr TypeError.
Proof.
  apply (text_stamp_silences_the_bridge last_event_time 0 "{...}"
           (Some (VDict [("timestamp_ms", VStr "noon")])) 1700000000000
           (Response 200 "ok")
           [("timestamp_ms", VStr "noon"); ("device_id", VStr "ELEGOO_PROTO_01")]
           [stamped 5000; stamped 90000]).
  - reflexivity.
  - lia.
  - discriminate.
  - reflexivity.
  - reflexivity.
Defined.

(** *** Spacing of what is forwarded *)

(** X16: once the watermark is a positive integer, and as long as no line
    carries a float stamp, the payloads forwarded afterwards carry integer
    stamps, the first at least the interval above the watermark and each
    further one at least the interval above the one forwarded before it:
    the backend never gets two of them less than the interval apart in
    device time. *)
Theorem forwarded_stamps_are_spaced (last : value) (w : Z) (rs : list reading) :
  as_int last = Some w ->
  (0 < w)%Z ->
  existsb float_stamped rs = false ->
  spaced w (stamps (posted (snd (loop last rs)))).
Proof.
  revert last w; induction rs as [| r rs IH]; intros last w Hlast Hset Hfloat.
  - exact I.
  - cbn [existsb] in Hfloat; apply orb_false_elim in Hfloat as [Hr Hrs].
    assert (Hstop : r = Interrupt \/ r <> Interrupt)
      by (destruct r; [right | right | right | left]; congruence).
    destruct Hstop as [-> | Hgo]; [exact I |].
    rewrite loop_cons by exact Hgo; cbn [snd]; rewrite posted_app.
    destruct (iteration_when_set last w r Hlast Hset Hr)
      as [[Hw Hd] | (line & loads & now_ms & backend & payload & t & _ & _
                     & Hs & Hge & Hw & Hd)]; rewrite Hw, Hd; cbn [app].
    + now apply IH.
    + cbn [stamps map spaced]; fold (stamps (posted (snd (loop (VInt t) rs)))).
      exists t; split; [exact Hs | split; [exact Hge |]].
      apply IH; [reflexivity | unfold MIN_INTERVAL in Hge; lia | exact Hrs].
Qed.

Lemma forwarded_stamps_are_spaced_witness :
  spaced 1000
    (stamps (posted (snd (loop (VInt 1000)
                            [stamped 2000; stamped 3000; stamped 4999; stamped 5000])))).
Proof.
  apply (forwarded_stamps_are_spaced (VInt 1000) 1000
           [stamped 2000; stamped 3000; stamped 4999; stamped 5000]).
  - reflexivity.
  - lia.
  - reflexivity.
Defined.

(** *** Blank lines and failed reads *)

(** X18: blank lines and failed reads bring nothing: taking them out of
    the readings changes neither the watermark the loop ends with nor the
    payloads it forwards. *)
Theorem noise_changes_nothing (last : value) (rs : list reading) :
  fst (loop last rs) = fst (loop last (filter (fun r => negb (is_noise r)) rs))
  /\ posted (snd (loop last rs))
     = posted (snd (loop last (filter (fun r => negb (is_noise r)) rs))).
Proof.
  revert last; induction rs as [| r rs IH]; intros last; [split; reflexivity |].
  destruct r as [line loads now_ms backend | line e | e |].
  - cbn [filter is_noise].
    destruct (String.eqb_spec line "") as [-> | Hline]; cbn [negb].
    + rewrite loop_cons by discriminate; cbn [fst snd iteration String.eqb app].
      apply IH.
    + rewrite !loop_cons by discriminate; cbn [fst snd]; rewrite !posted_app.
      destruct (IH (fst (iteration last (Line line loads now_ms backend))))
        as [-> ->]; split; reflexivity.
  - cbn [filter is_noise].
    destruct (String.eqb_spec line "") as [-> | Hline]; cbn [negb].
    + rewrite loop_cons by discriminate; cbn [fst snd iteration String.eqb app].
      apply IH.
    + rewrite !loop_cons by discriminate; cbn [fst snd]; rewrite !posted_app.
      destruct (IH (fst (iteration last (LoadsRaises line e))))
        as [-> ->]; split; reflexivity.
  - cbn [filter is_noise negb].
    rewrite loop_cons by discriminate; cbn [fst snd iteration]; rewrite posted_app.
    apply IH.
  - split; reflexivity.
Qed.

(** *** A clock that never gets positive *)

(** X19: the limiter needs a positive watermark to work: starting unset,
    if every reading is a non-empty line whose payload carries an integer
    stamp that is not positive (a device that always reports 0, say), every
    one of them is forwarded, however close together they come. *)
Theorem no_limit_without_positive_stamps (last : value) (w : Z) (rs : list reading) :
  as_int last = Some w ->
  (w <= 0)%Z ->
  Forall (fun r => exists line loads now_ms backend payload t,
                     r = Line line loads now_ms backend
                     /\ line <> ""
                     /\ payload_of line loads now_ms = inl payload
                     /\ as_int (get payload "timestamp_ms" VNone) = Some t
                     /\ (t <= 0)%Z) rs ->
  length (posted (snd (loop last rs))) = length rs.
Proof.
  revert last w; induction rs as [| r rs IH]; intros last w Hlast Hunset Hall;
    [reflexivity |].
  inversion Hall as [| ? ? Hr Hrs]; subst.
  destruct Hr as (line & loads & now_ms & backend & payload & t & -> & Hline & Hp
                  & Hstamp & Ht).
  pose proof (iteration_line last line loads now_ms backend payload Hline Hp) as H.
  cbv zeta in H; rewrite (too_soon_unset last _ w Hlast Hunset) in H.
  destruct H as [Hw Hd].
  rewrite loop_cons by discriminate; cbn [snd]; rewrite posted_app, Hw, Hd.
  cbn [app length]; f_equal; now apply (IH _ t).
Qed.

Lemma no_limit_without_positive_stamps_witness :
  length (posted (snd (loop last_event_time [stamped 0; stamped 0; stamped 0])))
  = length [stamped 0; stamped 0; stamped 0].
Proof.
  apply (no_limit_without_positive_stamps last_event_time 0
           [stamped 0; stamped 0; stamped 0]).
  - reflexivity.
  - lia.
  - repeat constructor;
      (exists "{...}",
              (Some (VDict [("event", VStr "motion"); ("timestamp_ms", VInt 0)])),
              1700000000000%Z, (Response 200 "ok"), (stamped_payload 0), 0%Z;
       repeat split; [discriminate | lia]).
Defined.

(** *** The whole run *)

Lemma quiet_posts_nothing (done : list effect) :
  Forall (fun e => forall url payload, e <> Posted url payload) done ->
  posted done = [].
Proof.
  induction 1 as [| e done He _ IH]; [reflexivity |].
  destruct e; cbn [posted flat_map app]; try exact IH.
  now elim (He url payload).
Qed.

Ltac quiet :=
  repeat first
    [ assumption
    | apply Forall_nil
    | apply Forall_app; split
    | apply Forall_cons; [intros ? ?; discriminate |] ].

Lemma enumerate_ports_is_quiet {host : Host} :
  Forall (fun e => forall url payload, e <> Posted url payload) (fst enumerate_ports).
Proof.
  unfold enumerate_ports.
  destruct comports as [| first others]; [quiet |].
  set (listing := map _ (combine _ _)).
  assert (Hlisting : Forall (fun e => forall url payload, e <> Posted url payload)
                       listing).
  { subst listing; apply Forall_map, Forall_forall.
    intros [i [dev desc]] _ url payload; discriminate. }
  clearbody listing.
  destruct stdin as [| choice | e | e |]; cbn [fst]; try solve [quiet].
  destruct (String.eqb (lower choice) "q"); [cbn [fst]; quiet |].
  destruct (String.eqb choice "");
    [| destruct (int choice)];
    destruct (nth_error _ _) as [[dev desc] |]; cbn [fst]; quiet.
Qed.

Lemma choose_port_is_quiet {host : Host} (preferred : option string) :
  Forall (fun e => forall url payload, e <> Posted url payload)
    (fst (choose_port preferred)).
Proof.
  unfold choose_port.
  destruct preferred as [p |]; [| apply enumerate_ports_is_quiet].
  destruct (String.eqb p ""); cbn [negb]; [apply enumerate_ports_is_quiet |].
  destruct (Serial_probe p); [| quiet].
  pose proof enumerate_ports_is_quiet as H.
  destruct enumerate_ports as [done r]; cbn [fst] in *; quiet.
Qed.

(** X20: [run] forwards exactly what the read loop forwards from the
    initial watermark 0, provided a port with a non-empty name was chosen
    and opened; when no port is chosen, the prompt is interrupted or the
    port does not open, nothing is forwarded at all. *)
Theorem run_forwards_what_the_loop_forwards {host : Host} (rs : list reading) :
  (forall chosen,
     snd (choose_port SERIAL_PORT) = Returns (Some chosen) ->
     chosen <> "" ->
     Serial_open chosen = None ->
     posted (run rs) = posted (snd (loop (VInt 0) rs)))
  /\ ((forall chosen,
         snd (choose_port SERIAL_PORT) = Returns (Some chosen) ->
         chosen = "" \/ Serial_open chosen <> None) ->
      posted (run rs) = []).
Proof.
  pose proof (choose_port_is_quiet SERIAL_PORT) as Hquiet.
  unfold run.
  destruct (choose_port SERIAL_PORT) as [done [[chosen |] |]]; cbn [fst snd] in *.
  - split.
    + intros c [= <-] Hname Hopen.
      apply String.eqb_neq in Hname; rewrite Hname, Hopen.
      rewrite app_comm_cons, app_assoc, posted_app.
      rewrite quiet_posts_nothing by quiet; reflexivity.
    + intros Hbad; destruct (Hbad chosen eq_refl) as [-> | Hfail].
      * cbn [String.eqb]; apply quiet_posts_nothing; quiet.
      * destruct (String.eqb chosen "");
          [| destruct (Serial_open chosen); [| congruence]];
          apply quiet_posts_nothing; quiet.
  - split; [discriminate |]; intros _; apply quiet_posts_nothing; quiet.
  - split; [discriminate |]; intros _; apply quiet_posts_nothing; quiet.
Qed.

Lemma run_forwards_what_the_loop_forwards_witness :
  posted (@run (desk (Answers "1")) [stamped 1000; stamped 1500; stamped 4000])
  = posted (snd (loop (VInt 0) [stamped 1000; stamped 1500; stamped 4000])).
Proof.
  destruct (@run_forwards_what_the_loop_forwards (desk (Answers "1"))
              [stamped 1000; stamped 1500; stamped 4000]) as (Hopen & _).
  apply (Hopen (device usb)).
  - reflexivity.
  - discriminate.
  - reflexivity.
Defined.

End BridgeExtras.
